(** * debug_database.py: the TaskMaster database debugger

    A shallow embedding of [src/debug_database.py] and the properties of
    its three functions, [find_database], [examine_database] and [main].

    The script talks to three things outside itself: the process
    environment and the file system (through [os] and [pathlib]), the
    SQLite driver ([sqlite3]) and standard output ([print]).  They are
    modelled as an explicit [state] that the functions thread, in a state
    monad whose results are either a value or a raised Python exception.

    What the model covers of the world around the script:
    - a file is a SQLite database or something else; a database is a
      list of tables and views with their columns and rows, and a cell
      holds a value of any storage class (NULL, INTEGER, REAL, TEXT,
      BLOB), whatever the declared type of its column;
    - the driver runs the three statements of the script: the table
      names of the catalogue, PRAGMA table_info, and SELECT with an
      optional ORDER BY; names are matched without regard to case, an
      absent table or column is an [OperationalError], and ORDER BY
      sorts by SQLite's order of values;
    - [sqlite3.connect] creates an empty database where there is no
      file, and a file that is no database is found out at the first
      statement.
    What it leaves out: [print] and [connect] never fail (no encoding
    error of the console, no permissions, no directories, no locks),
    text is valid Unicode, the infinities among the reals, collations
    other than BINARY, and the write-ahead log.

    Layout: Python strings and values; exceptions; formatting; the
    database and the statements of the driver; the process state and its
    primitives; the three functions of the script; a platform and sample
    databases to run it on; the notions the properties are stated with;
    lemmas; and the theorems, one per claim, each with its example. *)

From Stdlib Require Import ZArith NArith List String Ascii QArith Qcanon.
From Stdlib Require Import DecimalString Sorting.Sorted Sorting.Permutation Lia.
From stdpp Require Import base decidable option list numbers countable gmap sorting.

#[local] Open Scope Z_scope.
#[local] Open Scope list_scope.

(** ** Python strings

    A Python [str] is a sequence of Unicode code points; [len], slicing
    and the width of a format specification all count code points.  A
    character is therefore a code point (an [N]) and a string a list of
    them.  [lit] reads an ASCII literal of the source. *)

Abbreviation str := (list N).

Definition lit (s : string) : str :=
  map N_of_ascii (list_ascii_of_string s).

(** A character repeated [n] times, as in the rules the script prints. *)
Definition repeat_char (c : N) (n : nat) : str := replicate n c.

Definition space : N := 32%N.
Definition newline : N := 10%N.

(** [s.ljust(w)]: how a format specification that is a width alone
    renders a [str]: padded with spaces on the right up to [w]
    characters, never cut. *)
Definition ljust (w : nat) (s : str) : str :=
  s ++ repeat_char space (w - length s).

(** [s.rjust(w)]: how a width alone renders a number. *)
Definition rjust (w : nat) (s : str) : str :=
  repeat_char space (w - length s) ++ s.

(** [str(n)] for an [int]. *)
Definition int_str (z : Z) : str :=
  lit (NilZero.string_of_int (Z.to_int z)).

(** ** Python bytes: [repr(b)]

    The f-string field of a [bytes] object is its [repr]: the letter b,
    a quote, the bytes with the escapes of CPython (PyBytes_Repr), and
    the quote again.  The quote is the single quote (39) unless the bytes
    hold a single quote and no double quote (34). *)

Definition hexdigit (n : N) : N :=
  if (n <? 10)%N then (48 + n)%N else (87 + n)%N.

Definition bytes_repr_char (quote : N) (c : N) : str :=
  if (c =? quote)%N || (c =? 92)%N then [92%N; c]
  else if (c =? 9)%N then lit "\t"
  else if (c =? 10)%N then lit "\n"
  else if (c =? 13)%N then lit "\r"
  else if (c <? 32)%N || (127 <=? c)%N
       then lit "\x" ++ [hexdigit (c / 16); hexdigit (c mod 16)]
  else [c].

Definition bytes_quote (b : list N) : N :=
  if existsb (N.eqb 39) b && negb (existsb (N.eqb 34) b) then 34%N else 39%N.

Definition bytes_repr (b : list Byte.byte) : str :=
  let cs := map Byte.to_N b in
  let q := bytes_quote cs in
  lit "b" ++ [q] ++ concat (map (bytes_repr_char q) cs) ++ [q].

(** ** Values

    What a cell of a table holds, by SQLite storage class, and the Python
    object [sqlite3] hands back for it: [Null] is [None], [Integer] an
    [int], [Real] a [float], [Text] a [str] and [Blob] a [bytes].  A
    [Real] is kept as the rational number the double stands for (the
    infinities are left out). *)

Inductive value :=
| Null
| Integer (z : Z)
| Real (q : Qc)
| Text (s : str)
| Blob (b : list Byte.byte).

(** A row of a result set: a Python tuple. *)
Abbreviation row := (list value).

(** ** Exceptions and results *)

Inductive exn :=
| OperationalError (msg : str)   (* sqlite3.OperationalError *)
| DatabaseError (msg : str)      (* a sqlite3.DatabaseError that is no OperationalError *)
| ProgrammingError (msg : str)   (* sqlite3.ProgrammingError *)
| TypeError (msg : str)
| IndexError (msg : str).

Inductive outcome (A : Type) :=
| Ok (a : A)
| Raise (e : exn).
Arguments Ok {A} a.
Arguments Raise {A} e.

Definition obind {A B} (c : outcome A) (k : A -> outcome B) : outcome B :=
  match c with
  | Ok a => k a
  | Raise e => Raise e
  end.

Declare Scope outcome_scope.
Delimit Scope outcome_scope with outcome.
Notation "'let!' x ':=' c 'in' k" := (obind c (fun x => k))
  (at level 10, x name, c at level 100, k at level 200) : outcome_scope.

(** [t[i]] on a tuple. *)
Definition index (t : row) (i : nat) : outcome value :=
  match t !! i with
  | Some v => Ok v
  | None => Raise (IndexError (lit "tuple index out of range"))
  end.

(** ** What the script takes from its platform

    Three things the script relies on are computed by the Python runtime
    and by SQLite, not by the script; the development is parametric in
    them.
    - [float_str x] is [str(x)] for a float [x] (the shortest decimal
      that reads back as [x]).
    - [app_data_db d] is [str(Path(d) / "TaskMaster" / "taskmaster.db")]
      as [pathlib] renders it on the platform (separators, normalisation).
    - [pragma_argument t] is how SQLite reads the text [t] that the script
      splices between the parentheses of [PRAGMA table_info(...)]: the
      name it denotes, or the error of a text that is no single name
      (a table name with a blank in it, a reserved word).  Whatever the
      text, the statement stays a PRAGMA table_info, which reads: the
      driver runs one statement per call and refuses a text that holds
      more. *)

Class Runtime := {
  float_str : Qc -> str;
  app_data_db : str -> str;
  pragma_argument : str -> outcome str;
}.

(** ** Formatting, as f-strings do it *)

Section Formatting.
Context {rt : Runtime}.

(** A replacement field without a format specification: [str(v)]. *)
Definition format_plain (v : value) : str :=
  match v with
  | Null => lit "None"
  | Integer z => int_str z
  | Real q => float_str q
  | Text s => s
  | Blob b => bytes_repr b
  end.

(** A replacement field whose format specification is a width alone, as
    in [{project[1]:20}].  Numbers are right-justified, strings are
    left-justified, and [None] and [bytes] accept no format
    specification at all. *)
Definition format_width (w : nat) (v : value) : outcome str :=
  match v with
  | Null => Raise (TypeError (lit "unsupported format string passed to NoneType.__format__"))
  | Integer z => Ok (rjust w (int_str z))
  | Real q => Ok (rjust w (float_str q))
  | Text s => Ok (ljust w s)
  | Blob _ => Raise (TypeError (lit "unsupported format string passed to bytes.__format__"))
  end.

(** [v[:10]] *)
Definition slice10 (v : value) : outcome value :=
  match v with
  | Null => Raise (TypeError (lit "'NoneType' object is not subscriptable"))
  | Integer _ => Raise (TypeError (lit "'int' object is not subscriptable"))
  | Real _ => Raise (TypeError (lit "'float' object is not subscriptable"))
  | Text s => Ok (Text (take 10 s))
  | Blob b => Ok (Blob (take 10 b))
  end.

End Formatting.

(** ** The database

    A database file holds relations (tables and views), each with its
    declared columns and its rows, in the order of [sqlite_master].  A
    row has one value per column; SQLite is dynamically typed, so any
    column may hold a value of any storage class.  For a view,
    [rel_rows] is what a [SELECT] from it returns. *)

Record column := {
  col_name : str;
  col_type : str;
  col_notnull : bool;
  col_dflt : value;
  col_pk : Z;
}.

Inductive reltype := Table | View.

Record relation := {
  rel_type : reltype;
  rel_name : str;
  rel_columns : list column;
  rel_rows : list row;
}.

Abbreviation database := (list relation).

(** SQLite compares the names of tables and columns without regard to
    the case of ASCII letters. *)
Definition ascii_lower (c : N) : N :=
  if (65 <=? c)%N && (c <=? 90)%N then (c + 32)%N else c.

Definition name_eqb (a b : str) : bool :=
  bool_decide (map ascii_lower a = map ascii_lower b).

Definition find_relation (name : str) (d : database) : option relation :=
  find (fun r => name_eqb (rel_name r) name) d.

Fixpoint column_index (name : str) (cols : list column) : option nat :=
  match cols with
  | [] => None
  | c :: cols' =>
      if name_eqb (col_name c) name then Some 0%nat
      else S <$> column_index name cols'
  end.

(** The positions of the named columns, or the error of the first name
    that is no column of the relation. *)
Fixpoint resolve_columns (names : list str) (cols : list column) : outcome (list nat) :=
  match names with
  | [] => Ok []
  | n :: names' =>
      match column_index n cols with
      | None => Raise (OperationalError (lit "no such column: " ++ n))
      | Some i => obind (resolve_columns names' cols) (fun rest => Ok (i :: rest))
      end
  end.

(** The cell of a stored row at a position ([Null] if the row is short). *)
Definition cell (r : row) (i : nat) : value := nth i r Null.

Definition project (idxs : list nat) (r : row) : row := map (cell r) idxs.

(** ** The order of ORDER BY

    SQLite orders values by storage class first (NULL, then numbers,
    then text, then blobs); numbers by their numeric value, integers and
    reals together; text by the BINARY collation, the order of the code
    points; blobs byte by byte. *)

Fixpoint list_compare {A} (cmp : A -> A -> comparison) (a b : list A) : comparison :=
  match a, b with
  | [], [] => Eq
  | [], _ :: _ => Lt
  | _ :: _, [] => Gt
  | x :: a', y :: b' =>
      match cmp x y with
      | Eq => list_compare cmp a' b'
      | c => c
      end
  end.

Definition class_rank (v : value) : nat :=
  match v with
  | Null => 0
  | Integer _ | Real _ => 1
  | Text _ => 2
  | Blob _ => 3
  end.

Definition numeric (v : value) : Qc :=
  match v with
  | Integer z => Q2Qc (inject_Z z)
  | Real q => q
  | _ => Q2Qc 0
  end.

Definition chars (v : value) : list N :=
  match v with
  | Text s => s
  | Blob b => map Byte.to_N b
  | _ => []
  end.

Definition value_compare (a b : value) : comparison :=
  match Nat.compare (class_rank a) (class_rank b) with
  | Eq =>
      match Qccompare (numeric a) (numeric b) with
      | Eq => list_compare N.compare (chars a) (chars b)
      | c => c
      end
  | c => c
  end.

(** Rows compared on the cells at the positions [keys], the first
    position first. *)
Definition row_compare (keys : list nat) (r1 r2 : row) : comparison :=
  list_compare value_compare (project keys r1) (project keys r2).

Definition row_leb (keys : list nat) (r1 r2 : row) : bool :=
  match row_compare keys r1 r2 with
  | Gt => false
  | _ => true
  end.

(** The sort behind ORDER BY: rows with equal keys keep the order they
    are stored in, and without keys nothing moves. *)
Fixpoint insert_row (keys : list nat) (r : row) (sorted : list row) : list row :=
  match sorted with
  | [] => [r]
  | r' :: rest =>
      if row_leb keys r r' then r :: sorted
      else r' :: insert_row keys r rest
  end.

Definition order_rows (keys : list nat) (rows : list row) : list row :=
  foldr (insert_row keys) [] rows.

(** ** Statements

    The statements of the driver, by what the text handed to
    [cursor.execute] says.  The script issues the first three forms only;
    the two writing forms stand for what a connection could also be asked
    to do.
    - [SelectTableNames]: SELECT name FROM sqlite_master WHERE type='table'
    - [PragmaTableInfo t]: PRAGMA table_info(t), [t] spliced in as it is
    - [Select cols tbl keys]: SELECT cols FROM tbl, with ORDER BY keys
      when [keys] is not empty *)

Inductive stmt :=
| SelectTableNames
| PragmaTableInfo (arg : str)
| Select (cols : list str) (from : str) (order_by : list str)
| InsertInto (table : str) (r : row)
| DeleteFrom (table : str).

Definition is_read (q : stmt) : bool :=
  match q with
  | SelectTableNames | PragmaTableInfo _ | Select _ _ _ => true
  | InsertInto _ _ | DeleteFrom _ => false
  end.

Definition is_table (r : relation) : bool :=
  match rel_type r with
  | Table => true
  | View => false
  end.

(** One row per column: (cid, name, type, notnull, dflt_value, pk). *)
Definition table_info (t : relation) : list row :=
  imap (fun i c => [Integer (Z.of_nat i); Text (col_name c); Text (col_type c);
                    Integer (if col_notnull c then 1 else 0); col_dflt c;
                    Integer (col_pk c)])
       (rel_columns t).

Definition no_such_table (name : str) : exn :=
  OperationalError (lit "no such table: " ++ name).

Definition with_rows (t : relation) (rows : list row) : relation :=
  {| rel_type := rel_type t; rel_name := rel_name t;
     rel_columns := rel_columns t; rel_rows := rows |}.

(** The first table of that name, with its rows replaced by [f] of them. *)
Fixpoint update_table (name : str) (f : list row -> list row) (d : database) : option database :=
  match d with
  | [] => None
  | t :: d' =>
      if is_table t && name_eqb (rel_name t) name
      then Some (with_rows t (f (rel_rows t)) :: d')
      else cons t <$> update_table name f d'
  end.

Section Engine.
Context {rt : Runtime}.

(** What a statement returns on a database, and the database after it. *)
Definition exec (q : stmt) (d : database) : outcome (list row * database) :=
  match q with
  | SelectTableNames =>
      Ok (map (fun t => [Text (rel_name t)]) (List.filter is_table d), d)
  | PragmaTableInfo arg =>
      obind (pragma_argument arg) (fun name =>
        match find_relation name d with
        | None => Ok ([], d)
        | Some t => Ok (table_info t, d)
        end)
  | Select cols from order_by =>
      match find_relation from d with
      | None => Raise (no_such_table from)
      | Some t =>
          obind (resolve_columns cols (rel_columns t)) (fun idxs =>
          obind (resolve_columns order_by (rel_columns t)) (fun keys =>
            Ok (map (project idxs) (order_rows keys (rel_rows t)), d)))
      end
  | InsertInto table r =>
      match update_table table (fun rows => rows ++ [r]) d with
      | None => Raise (no_such_table table)
      | Some d' => Ok ([], d')
      end
  | DeleteFrom table =>
      match update_table table (fun _ => []) d with
      | None => Raise (no_such_table table)
      | Some d' => Ok ([], d')
      end
  end.

End Engine.

(** ** The process state

    What a run of the script can read or change: the environment
    variables, the files (by the name they are opened with), the text
    written to standard output (one entry per call of [print]), the
    connections made so far, and the statements handed to the driver.
    A file is a SQLite database or anything else. *)

Inductive file :=
| SqliteFile (d : database)
| OtherFile.

Record connection := {
  conn_path : str;
  conn_open : bool;
  conn_rows : list row;     (* the result set of the last statement *)
}.

Record state := {
  environ : gmap (list N) (list N);
  files : gmap (list N) file;
  stdout : list str;
  connections : list connection;
  executed : list stmt;
}.

(** The state a process starts in. *)
Definition start (env : gmap (list N) (list N)) (fs : gmap (list N) file) : state :=
  {| environ := env; files := fs; stdout := []; connections := []; executed := [] |}.

(** The characters standard output has received: [print] ends each of
    its strings with a newline. *)
Definition stdout_text (st : state) : str :=
  concat (map (fun s => s ++ [newline]) (stdout st)).

Definition set_files (fs : gmap (list N) file) (st : state) : state :=
  {| environ := environ st; files := fs; stdout := stdout st;
     connections := connections st; executed := executed st |}.

Definition set_stdout (out : list str) (st : state) : state :=
  {| environ := environ st; files := files st; stdout := out;
     connections := connections st; executed := executed st |}.

Definition set_connections (cs : list connection) (st : state) : state :=
  {| environ := environ st; files := files st; stdout := stdout st;
     connections := cs; executed := executed st |}.

Definition set_executed (qs : list stmt) (st : state) : state :=
  {| environ := environ st; files := files st; stdout := stdout st;
     connections := connections st; executed := qs |}.

(** ** The monad of the script: state, and a value or an exception *)

Definition M (A : Type) : Type := state -> outcome A * state.

Definition ret {A} (a : A) : M A := fun st => (Ok a, st).

Definition bind {A B} (c : M A) (k : A -> M B) : M B := fun st =>
  match c st with
  | (Ok a, st') => k a st'
  | (Raise e, st') => (Raise e, st')
  end.

Definition lift {A} (o : outcome A) : M A := fun st => (o, st).

Declare Scope py_scope.
Delimit Scope py_scope with py.
Notation "x <- c ;; k" := (bind c (fun x => k))
  (at level 100, c at next level, right associativity) : py_scope.
Notation "c ;;; k" := (bind c (fun _ => k))
  (at level 100, right associativity) : py_scope.

#[local] Open Scope py_scope.

(** [try: body except sqlite3.OperationalError as e: handler(str(e))] *)
Definition try_except_operational (body : M unit) (handler : str -> M unit) : M unit :=
  fun st =>
    match body st with
    | (Raise (OperationalError msg), st') => handler msg st'
    | r => r
    end.

(** [for x in xs: body(x)] *)
Fixpoint for_each {A} (xs : list A) (body : A -> M unit) : M unit :=
  match xs with
  | [] => ret tt
  | x :: xs' => body x ;;; for_each xs' body
  end.

(** *** Standard output, environment, file system *)

Definition print (s : str) : M unit := fun st =>
  (Ok tt, set_stdout (stdout st ++ [s]) st).

(** [os.environ.get(name)] *)
Definition environ_get (name : str) : M (option str) := fun st =>
  (Ok (environ st !! name), st).

(** [os.environ.get(name, default)] *)
Definition environ_get_default (name dflt : str) : M str := fun st =>
  (Ok (default dflt (environ st !! name)), st).

(** [Path(p).exists()], for a path whose [str] is [p] *)
Definition path_exists (p : str) : M bool := fun st =>
  (Ok (bool_decide (is_Some (files st !! p))), st).

(** *** The driver *)

Section Driver.
Context {rt : Runtime}.

(** [sqlite3.connect(path)]: opens the file, and creates an empty
    database when there is none (the driver opens for reading and
    writing).  The new connection is the last one of [connections]. *)
Definition connect (path : str) : M nat := fun st =>
  let fs := match files st !! path with
            | Some _ => files st
            | None => <[path := SqliteFile []]> (files st)
            end in
  (Ok (length (connections st)),
   set_connections
     (connections st ++ [{| conn_path := path; conn_open := true; conn_rows := [] |}])
     (set_files fs st)).

(** [conn.cursor()]: a cursor is identified with its connection. *)
Definition cursor (conn : nat) : M nat := ret conn.

Definition closed_error : exn :=
  ProgrammingError (lit "Cannot operate on a closed database.").

Definition set_rows (rows : list row) (c : connection) : connection :=
  {| conn_path := conn_path c; conn_open := conn_open c; conn_rows := rows |}.

(** [cursor.execute(sql)]: the statement is recorded, run on the
    database of the connection's file, and its rows are kept for
    [fetchall].  A file that is no database is found out here, not at
    [connect]. *)
Definition execute (cur : nat) (q : stmt) : M unit := fun st =>
  match connections st !! cur with
  | None => (Raise closed_error, st)
  | Some c =>
      if conn_open c then
        let st1 := set_executed (executed st ++ [q]) st in
        match files st !! conn_path c with
        | Some (SqliteFile d) =>
            match exec q d with
            | Ok (rows, d') =>
                (Ok tt,
                 set_connections (<[cur := set_rows rows c]> (connections st))
                   (set_files (<[conn_path c := SqliteFile d']> (files st)) st1))
            | Raise e => (Raise e, st1)
            end
        | Some OtherFile => (Raise (DatabaseError (lit "file is not a database")), st1)
        | None => (Raise (OperationalError (lit "unable to open database file")), st1)
        end
      else (Raise closed_error, st)
  end.

(** [cursor.fetchall()] *)
Definition fetchall (cur : nat) : M (list row) := fun st =>
  match connections st !! cur with
  | None => (Raise closed_error, st)
  | Some c =>
      if conn_open c
      then (Ok (conn_rows c), set_connections (<[cur := set_rows [] c]> (connections st)) st)
      else (Raise closed_error, st)
  end.

(** [conn.close()] *)
Definition close (conn : nat) : M unit := fun st =>
  match connections st !! conn with
  | None => (Raise closed_error, st)
  | Some c =>
      (Ok tt,
       set_connections
         (<[conn := {| conn_path := conn_path c; conn_open := false; conn_rows := [] |}]>
            (connections st)) st)
  end.

End Driver.

(** ** The script *)

Section Script.
Context {rt : Runtime}.

(** *** find_database (lines 10-23) *)

(** The file name of the database, as both lookups spell it. *)
Definition db_file_name : str := lit "taskmaster.db".

(** The truth value Python gives a string or [None]: [None] and the
    empty string are false. *)
Definition truthy (o : option str) : bool :=
  match o with
  | None | Some [] => false
  | Some (_ :: _) => true
  end.

Definition find_database : M (option str) :=
  local_app_data <- environ_get (lit "LOCALAPPDATA") ;;
  in_app_data <-
    match local_app_data with
    | Some dir =>
        if truthy local_app_data then
          let db_path := app_data_db dir in
          found <- path_exists db_path ;;
          ret (if found then Some db_path else None)
        else ret None
    | None => ret None
    end ;;
  match in_app_data with
  | Some db_path => ret (Some db_path)
  | None =>
      (* Check current directory *)
      found <- path_exists db_file_name ;;
      if found then ret (Some db_file_name) else ret None
  end.

(** *** examine_database (lines 25-75) *)

(** The pictographs of the section titles, as code points. *)
Definition clipboard : N := 128203%N.      (* U+1F4CB *)
Definition file_folder : N := 128193%N.    (* U+1F4C1 *)
Definition bar_chart : N := 128202%N.      (* U+1F4CA *)
Definition memo : N := 128221%N.           (* U+1F4DD *)
Definition magnifier : N := 128269%N.      (* U+1F50D *)
Definition cross_mark : N := 10060%N.      (* U+274C *)
Definition check_mark : N := 9989%N.       (* U+2705 *)

(** The three statements of the script. *)
Definition projects_query : stmt :=
  Select [lit "Id"; lit "Name"; lit "TaskCount"; lit "NextNumber"; lit "LastUpdated"]
         (lit "Projects") [].

Definition tasks_query : stmt :=
  Select [lit "Id"; lit "ProjectId"; lit "Number"; lit "Title"; lit "Type";
          lit "Status"; lit "Created"]
         (lit "TaskSpecs") [lit "ProjectId"; lit "Number"].

(** Line 54: the f-string of a Projects row.  The fields are evaluated
    and formatted from left to right. *)
Definition project_line (project : row) : outcome str :=
  (let! p0 := index project 0 in
   let! f0 := format_width 2 p0 in
   let! p1 := index project 1 in
   let! f1 := format_width 20 p1 in
   let! p2 := index project 2 in
   let! f2 := format_width 9 p2 in
   let! p3 := index project 3 in
   let! f3 := format_width 10 p3 in
   let! p4 := index project 4 in
   Ok (lit "  " ++ f0 ++ lit " | " ++ f1 ++ lit " | " ++ f2 ++ lit " | " ++ f3
         ++ lit " | " ++ format_plain p4))%outcome.

(** Line 69: the f-string of a TaskSpecs row; the last field is
    [task[6][:10]] without a format specification. *)
Definition task_line (task : row) : outcome str :=
  (let! t0 := index task 0 in
   let! f0 := format_width 2 t0 in
   let! t1 := index task 1 in
   let! f1 := format_width 6 t1 in
   let! t2 := index task 2 in
   let! f2 := format_width 3 t2 in
   let! t3 := index task 3 in
   let! f3 := format_width 20 t3 in
   let! t4 := index task 4 in
   let! f4 := format_width 7 t4 in
   let! t5 := index task 5 in
   let! f5 := format_width 6 t5 in
   let! t6 := index task 6 in
   let! created := slice10 t6 in
   Ok (lit "  " ++ f0 ++ lit " | " ++ f1 ++ lit " | " ++ f2 ++ lit " | " ++ f3
         ++ lit " | " ++ f4 ++ lit " | " ++ f5 ++ lit " | " ++ format_plain created))%outcome.

(** Lines 33-43: the schema. *)
Definition schema_section (cur : nat) : M unit :=
  print ([newline; clipboard] ++ lit " DATABASE SCHEMA:") ;;;
  execute cur SelectTableNames ;;;
  tables <- fetchall cur ;;
  for_each tables (fun table =>
    table_name <- lift (index table 0) ;;
    print ([newline] ++ lit "  " ++ [file_folder] ++ lit " Table: " ++ format_plain table_name) ;;;
    execute cur (PragmaTableInfo (format_plain table_name)) ;;;
    columns <- fetchall cur ;;
    for_each columns (fun col =>
      c1 <- lift (index col 1) ;;
      c2 <- lift (index col 2) ;;
      print (lit "    - " ++ format_plain c1 ++ lit " (" ++ format_plain c2 ++ lit ")"))).

(** Lines 45-58: the Projects table. *)
Definition projects_section (cur : nat) : M unit :=
  print ([newline; bar_chart] ++ lit " PROJECTS:") ;;;
  try_except_operational
    (execute cur projects_query ;;;
     projects <- fetchall cur ;;
     match projects with
     | _ :: _ =>
         print (lit "  ID | Name                 | TaskCount | NextNumber | LastUpdated") ;;;
         print (lit "  ---|----------------------|-----------|------------|-------------") ;;;
         for_each projects (fun project =>
           line <- lift (project_line project) ;;
           print line)
     | [] => print (lit "  No projects found.")
     end)
    (fun e => print (lit "  Error reading projects: " ++ e)).

(** Lines 60-73: the TaskSpecs table. *)
Definition tasks_section (cur : nat) : M unit :=
  print ([newline; memo] ++ lit " TASK SPECS:") ;;;
  try_except_operational
    (execute cur tasks_query ;;;
     tasks <- fetchall cur ;;
     match tasks with
     | _ :: _ =>
         print (lit "  ID | ProjID | Num | Title                | Type    | Status | Created") ;;;
         print (lit "  ---|--------|-----|----------------------|---------|--------|----------") ;;;
         for_each tasks (fun task =>
           line <- lift (task_line task) ;;
           print line)
     | [] => print (lit "  No task specs found.")
     end)
    (fun e => print (lit "  Error reading tasks: " ++ e)).

Definition examine_database (db_path : str) : M unit :=
  print (lit "Examining database: " ++ db_path) ;;;
  print (repeat_char 61%N 60) ;;;
  conn <- connect db_path ;;
  cur <- cursor conn ;;
  schema_section cur ;;;
  projects_section cur ;;;
  tasks_section cur ;;;
  close conn.

(** *** main (lines 77-96) *)

Definition not_found_report : M unit :=
  print ([cross_mark] ++ lit " Could not find taskmaster.db database file.") ;;;
  print (lit "   Expected locations:") ;;;
  dir <- environ_get_default (lit "LOCALAPPDATA") (lit "LOCALAPPDATA") ;;
  print (lit "   - " ++ dir ++ lit "/TaskMaster/taskmaster.db") ;;;
  print (lit "   - ./taskmaster.db").

Definition main : M unit :=
  print ([magnifier] ++ lit " TaskMaster Database Debugger") ;;;
  print (repeat_char 61%N 40) ;;;
  db_path <- find_database ;;
  match db_path with
  | Some path =>
      if truthy db_path then
        examine_database path ;;;
        print ([newline; check_mark] ++ lit " Database examination complete!") ;;;
        print ([newline] ++ lit "If you see issues:") ;;;
        print (lit "1. No projects: Create a project in TaskMaster first") ;;;
        print (lit "2. Missing NextNumber column: Database migration may have failed") ;;;
        print (lit "3. No task specs: Try saving a spec and check again")
      else not_found_report
  | None => not_found_report
  end.

End Script.

(** ** A platform to run the script on

    The instance the examples are evaluated with: [pathlib] as on POSIX
    (the app-data directory is split at slashes, empty and dot
    components are dropped, and a leading slash is kept, two slashes as
    two); a table name that is a plain identifier is read as itself by
    PRAGMA and any other text is a syntax error (the reserved words of
    SQLite are not told apart); a float is written as a fraction. *)

Fixpoint split_on (sep : N) (s : str) : list str :=
  match s with
  | [] => [[]]
  | c :: s' =>
      if (c =? sep)%N then [] :: split_on sep s'
      else match split_on sep s' with
           | [] => [[c]]
           | w :: ws => (c :: w) :: ws
           end
  end.

Fixpoint join_with (sep : str) (parts : list str) : str :=
  match parts with
  | [] => []
  | [p] => p
  | p :: rest => p ++ sep ++ join_with sep rest
  end.

Definition slash : N := 47%N.

Fixpoint leading_slashes (s : str) : nat :=
  match s with
  | c :: s' => if (c =? slash)%N then S (leading_slashes s') else 0
  | [] => 0
  end.

Definition posix_root (s : str) : str :=
  match leading_slashes s with
  | 0%nat => []
  | 2%nat => [slash; slash]
  | _ => [slash]
  end.

Definition is_path_part (p : str) : bool :=
  negb (bool_decide (p = [])) && negb (bool_decide (p = lit ".")).

Definition posix_app_data_db (dir : str) : str :=
  posix_root dir ++
  join_with [slash]
    (List.filter is_path_part (split_on slash dir) ++ [lit "TaskMaster"; lit "taskmaster.db"]).

Definition is_ident_char (c : N) : bool :=
  ((48 <=? c) && (c <=? 57) || (65 <=? c) && (c <=? 90) || (97 <=? c) && (c <=? 122)
   || (c =? 95))%N.

Definition is_identifier (t : str) : bool :=
  match t with
  | [] => false
  | c :: _ => negb ((48 <=? c) && (c <=? 57))%N && forallb is_ident_char t
  end.

Definition plain_pragma_argument (t : str) : outcome str :=
  if is_identifier t then Ok t
  else Raise (OperationalError (lit "near " ++ [34%N] ++ t ++ [34%N] ++ lit ": syntax error")).

Definition fraction_str (q : Qc) : str :=
  int_str (Qnum q) ++ [slash] ++ int_str (Z.pos (Qden q)).

Definition posix_runtime : Runtime :=
  {| float_str := fraction_str;
     app_data_db := posix_app_data_db;
     pragma_argument := plain_pragma_argument |}.

(** *** Sample databases *)

Definition col (name type : string) : column :=
  {| col_name := lit name; col_type := lit type; col_notnull := false;
     col_dflt := Null; col_pk := 0 |}.

Definition projects_columns : list column :=
  [col "Id" "INTEGER"; col "Name" "TEXT"; col "TaskCount" "INTEGER";
   col "NextNumber" "INTEGER"; col "LastUpdated" "TEXT"].

Definition taskspecs_columns : list column :=
  [col "Id" "INTEGER"; col "ProjectId" "INTEGER"; col "Number" "INTEGER";
   col "Title" "TEXT"; col "Type" "TEXT"; col "Status" "TEXT"; col "Created" "TEXT"].

Definition sample_db (projects tasks : list row) : database :=
  [ {| rel_type := Table; rel_name := lit "Projects";
       rel_columns := projects_columns; rel_rows := projects |};
    {| rel_type := Table; rel_name := lit "TaskSpecs";
       rel_columns := taskspecs_columns; rel_rows := tasks |} ].

(** The database of the specification's worked example. *)
Definition demo_project : row :=
  [Integer 1; Text (lit "Demo"); Integer 3; Integer 4; Text (lit "2024-01-01 10:00:00")].

Definition demo_task : row :=
  [Integer 1; Integer 1; Integer 1; Text (lit "Fix bug"); Text (lit "bug");
   Text (lit "open"); Text (lit "2024-01-01T00:00:00")].

Definition demo_db : database := sample_db [demo_project] [demo_task].

(** A process whose working directory holds the database [d] as
    taskmaster.db, with LOCALAPPDATA unset. *)
Definition cwd_world (d : database) : state :=
  start ∅ {[ db_file_name := SqliteFile d ]}.

(** * Notions the properties are stated with *)

(** ** Orders

    A three-way comparison is an order when swapping its arguments
    swaps the answer, [Eq] relates elements that compare alike with
    every third one, and [Lt] is transitive. *)

Record order_cmp {A} (cmp : A -> A -> comparison) : Prop := {
  cmp_opp : forall a b, cmp b a = CompOpp (cmp a b);
  cmp_eq_l : forall a b c, cmp a b = Eq -> cmp a c = cmp b c;
  cmp_lt_trans : forall a b c, cmp a b = Lt -> cmp b c = Lt -> cmp a c = Lt;
}.

Definition row_le (keys : list nat) (r1 r2 : row) : Prop :=
  row_compare keys r1 r2 <> Gt.

(** The order of the printed task rows: by the ProjectId cell, and by
    the Number cell where the ProjectId cells compare equal. *)
Definition task_le (t1 t2 : row) : Prop :=
  match value_compare (cell t1 1) (cell t2 1) with
  | Lt => True
  | Eq => value_compare (cell t1 2) (cell t2 2) <> Gt
  | Gt => False
  end.

(** ** What a computation does to the state

    [conn_view] is what matters of the connections: which file each one
    is on and whether it is open.  [same_world st st'] says that nothing
    outside the process has changed between two states and that the
    connections are as they were; [effect m st r out qs] that [m], run
    from [st], ends with the result [r] having printed [out] and handed
    the statements [qs] to the driver, and nothing else. *)

Definition conn_view (st : state) : list (list N * bool) :=
  (fun c => (conn_path c, conn_open c)) <$> connections st.

Record same_world (st st' : state) : Prop := {
  sw_environ : environ st' = environ st;
  sw_files : files st' = files st;
  sw_conns : conn_view st' = conn_view st;
}.

Definition effect {A} (m : M A) (st : state) (r : outcome A)
    (out : list str) (qs : list stmt) : Prop :=
  exists st', m st = (r, st') /\ same_world st st' /\
              stdout st' = stdout st ++ out /\ executed st' = executed st ++ qs.

Definition reads (qs : list stmt) : Prop := Forall (fun q => is_read q = true) qs.

(** [m] only prints and reads, whatever state it starts in. *)
Definition framed {A} (m : M A) : Prop :=
  forall st, exists r out qs, effect m st r out qs /\ reads qs.

(** The connection [cur] is open on the file [p], which holds the
    database [d]. *)
Definition ready (cur : nat) (p : str) (d : database) (st : state) : Prop :=
  conn_view st !! cur = Some (p, true) /\ files st !! p = Some (SqliteFile d).

(** The files after [sqlite3.connect(p)]: a missing file is created
    empty. *)
Definition opened (p : str) (fs : gmap (list N) file) : gmap (list N) file :=
  match fs !! p with
  | Some _ => fs
  | None => <[p := SqliteFile []]> fs
  end.

(** Whether the connection is left open: it is unless the function
    returned. *)
Definition left_open {A} (r : outcome A) : bool :=
  match r with
  | Ok _ => false
  | Raise _ => true
  end.

(** ** The two table listings

    The Projects and the TaskSpecs sections are one piece of code
    written twice, with different texts, statement and row format.
    [listing] is that piece, and [listing_report] says what it prints
    and how it ends, from the result of its statement alone. *)

Definition listing {rt : Runtime} (cur : nat) (title : str) (q : stmt) (header rule : str)
    (line : row -> outcome str) (none_msg err_msg : str) : M unit :=
  print title ;;;
  try_except_operational
    (execute cur q ;;;
     rows <- fetchall cur ;;
     match rows with
     | _ :: _ =>
         print header ;;;
         print rule ;;;
         for_each rows (fun r => l <- lift (line r) ;; print l)
     | [] => print none_msg
     end)
    (fun e => print (err_msg ++ e)).

(** The lines of the rows up to the first one that cannot be formatted,
    and the exception of that one. *)
Fixpoint render (line : row -> outcome str) (rows : list row) : list str * outcome unit :=
  match rows with
  | [] => ([], Ok tt)
  | r :: rows' =>
      match line r with
      | Ok l => (l :: fst (render line rows'), snd (render line rows'))
      | Raise e => ([], Raise e)
      end
  end.

Definition listing_report (header rule : str) (line : row -> outcome str)
    (none_msg err_msg : str) (res : outcome (list row * database))
    : outcome unit * list str :=
  match res with
  | Raise (OperationalError msg) => (Ok tt, [err_msg ++ msg])
  | Raise e => (Raise e, [])
  | Ok ([], _) => (Ok tt, [none_msg])
  | Ok (rows, _) => (snd (render line rows), [header; rule] ++ fst (render line rows))
  end.

(** A row format that never raises the exception the sections catch. *)
Definition no_operational (line : row -> outcome str) : Prop :=
  forall r msg, line r <> Raise (OperationalError msg).

(** A Created cell that [task[6][:10]] cannot slice: [None], an [int]
    or a [float]. *)
Definition unsubscriptable (v : value) : Prop :=
  match v with
  | Null | Integer _ | Real _ => True
  | Text _ | Blob _ => False
  end.

(** ** Parts of [examine_database] and of [main]

    [examine_prologue] is [examine_database] up to and including the
    Projects section; it returns the cursor.  The function is its
    prologue, then the TaskSpecs section, then [conn.close()]. *)

Definition examine_prologue {rt : Runtime} (db_path : str) : M nat :=
  print (lit "Examining database: " ++ db_path) ;;;
  print (repeat_char 61%N 60) ;;;
  conn <- connect db_path ;;
  cur <- cursor conn ;;
  schema_section cur ;;;
  projects_section cur ;;;
  ret cur.

Definition banner : list str :=
  [ [magnifier] ++ lit " TaskMaster Database Debugger"; repeat_char 61%N 40 ].

(** The lines of the report of a database that was not found. *)
Definition not_found_lines (st : state) : list str :=
  [ [cross_mark] ++ lit " Could not find taskmaster.db database file.";
    lit "   Expected locations:";
    lit "   - " ++ default (lit "LOCALAPPDATA") (environ st !! lit "LOCALAPPDATA")
      ++ lit "/TaskMaster/taskmaster.db";
    lit "   - ./taskmaster.db" ].

Definition closing_lines : list str :=
  [ [newline; check_mark] ++ lit " Database examination complete!";
    [newline] ++ lit "If you see issues:";
    lit "1. No projects: Create a project in TaskMaster first";
    lit "2. Missing NextNumber column: Database migration may have failed";
    lit "3. No task specs: Try saving a spec and check again" ].

(** ** More sample data *)

(** A task whose Created cell is NULL. *)
Definition undated_task : row :=
  [Integer 2; Integer 1; Integer 2; Text (lit "Write docs"); Text (lit "task");
   Text (lit "open"); Null].

(** A task whose Created cell is a BLOB with the bytes of a timestamp. *)
Definition blob_dated_task : row :=
  [Integer 3; Integer 1; Integer 3; Text (lit "Fix bug"); Text (lit "bug");
   Text (lit "open"); Blob (list_byte_of_string "2024-01-01T00:00:00")].

(** Three tasks stored out of order. *)
Definition shuffled_db : database :=
  sample_db []
    [ [Integer 1; Integer 2; Integer 1; Text (lit "c"); Text (lit "bug"); Text (lit "open");
       Text (lit "2024-03-01")];
      [Integer 2; Integer 1; Integer 2; Text (lit "b"); Text (lit "bug"); Text (lit "open");
       Text (lit "2024-02-01")];
      [Integer 3; Integer 1; Integer 1; Text (lit "a"); Text (lit "bug"); Text (lit "open");
       Text (lit "2024-01-01")] ].

(** A process with LOCALAPPDATA set to [dir] and one file, the database
    [d], under the name [path]. *)
Definition app_data_world (dir path : string) (d : database) : state :=
  start {[ lit "LOCALAPPDATA" := lit dir ]} {[ lit path := SqliteFile d ]}.

(** The state of the script just after it has connected to the empty
    database in the working directory. *)
Definition connected_to_empty : state :=
  snd (connect db_file_name (cwd_world [])).

Definition connected_to_shuffled : state :=
  snd (connect db_file_name (cwd_world shuffled_db)).

(** ** Notions of the further properties *)

(** A cell that a width can format: a number or a string. *)
Definition formattable (v : value) : Prop :=
  match v with
  | Integer _ | Real _ | Text _ => True
  | Null | Blob _ => False
  end.

(** A cell that [task[6][:10]] can slice: a string or a bytes object. *)
Definition sliceable (v : value) : Prop :=
  match v with
  | Text _ | Blob _ => True
  | Null | Integer _ | Real _ => False
  end.

(** Line 39: the line that opens the entry of a table. *)
Definition table_line (name : str) : str :=
  [newline] ++ lit "  " ++ [file_folder] ++ lit " Table: " ++ name.

(** Line 43: the line of a column, from its name and declared type. *)
Definition column_text (name type : str) : str :=
  lit "    - " ++ name ++ lit " (" ++ type ++ lit ")".

(** Line 43 as an f-string over a row of PRAGMA table_info. *)
Definition column_line {rt : Runtime} (col : row) : outcome str :=
  obind (index col 1) (fun c1 =>
  obind (index col 2) (fun c2 =>
    Ok (lit "    - " ++ format_plain c1 ++ lit " (" ++ format_plain c2 ++ lit ")"))).

(** The entry of a relation in the schema listing. *)
Definition schema_entry (t : relation) : list str :=
  table_line (rel_name t)
  :: map (fun c => column_text (col_name c) (col_type c)) (rel_columns t).

(** The tables of a database, in the order of the catalogue. *)
Definition tables_of (d : database) : list relation := List.filter is_table d.

(** The name of a table reads back as the table: PRAGMA takes the
    name as it is written, and no other relation answers to it. *)
Definition reads_back {rt : Runtime} (d : database) (t : relation) : Prop :=
  pragma_argument (rel_name t) = Ok (rel_name t) /\
  find_relation (rel_name t) d = Some t.

(** What the loop over the tables prints and sends, and how it ends. *)
Fixpoint schema_report {rt : Runtime} (d : database) (ts : list relation)
    : list str * list stmt * outcome unit :=
  match ts with
  | [] => ([], [], Ok tt)
  | t :: ts' =>
      match exec (PragmaTableInfo (rel_name t)) d with
      | Raise e => ([table_line (rel_name t)], [PragmaTableInfo (rel_name t)], Raise e)
      | Ok (cols, _) =>
          match snd (render column_line cols) with
          | Ok _ =>
              (table_line (rel_name t) :: fst (render column_line cols)
                 ++ fst (fst (schema_report d ts')),
               PragmaTableInfo (rel_name t) :: snd (fst (schema_report d ts')),
               snd (schema_report d ts'))
          | Raise e =>
              (table_line (rel_name t) :: fst (render column_line cols),
               [PragmaTableInfo (rel_name t)], Raise e)
          end
      end
  end.

(** The state [examine_database] is in when it has printed its two
    header lines and connected. *)
Definition connected (p : str) (st : state) : state :=
  set_connections
    (connections st ++ [{| conn_path := p; conn_open := true; conn_rows := [] |}])
    (set_files (opened p (files st))
       (set_stdout ((stdout st ++ [lit "Examining database: " ++ p])
                      ++ [repeat_char 61%N 60]) st)).

(** The state of the script just after it has connected to a database
    with both tables and no rows. *)
Definition connected_to_empty_tables : state :=
  snd (connect db_file_name (cwd_world (sample_db [] []))).

(** Two projects stored with the higher Id first. *)
Definition two_projects_db : database :=
  sample_db
    [ [Integer 2; Text (lit "Second"); Integer 0; Integer 1; Text (lit "2024-02-01 09:00:00")];
      [Integer 1; Text (lit "First"); Integer 5; Integer 6; Null] ]
    [].

Definition connected_to_two_projects : state :=
  snd (connect db_file_name (cwd_world two_projects_db)).

(** A database whose second table has a name that is no plain
    identifier. *)
Definition empty_projects : relation :=
  {| rel_type := Table; rel_name := lit "Projects";
     rel_columns := projects_columns; rel_rows := [] |}.

Definition spaced_table : relation :=
  {| rel_type := Table; rel_name := lit "my table";
     rel_columns := [col "a" "TEXT"]; rel_rows := [] |}.

Definition spaced_name_db : database := [empty_projects; spaced_table].

(** A process whose working directory holds a taskmaster.db that is no
    database. *)
Definition text_file_world : state :=
  start ∅ {[ db_file_name := OtherFile ]}.

(** How steps run one after the other end: with the first exception,
    after the output and the statements up to it. *)
Fixpoint in_sequence (steps : list (outcome unit * list str * list stmt))
    : outcome unit * list str * list stmt :=
  match steps with
  | [] => (Ok tt, [], [])
  | (Ok _, o, q) :: rest =>
      (fst (fst (in_sequence rest)), o ++ snd (fst (in_sequence rest)),
       q ++ snd (in_sequence rest))
  | (Raise e, o, q) :: _ => (Raise e, o, q)
  end.

(** * Lemmas *)

(** ** Comparisons that are orders *)

Section OrderCmp.
Context {A : Type} (cmp : A -> A -> comparison) (Hcmp : order_cmp cmp).

Lemma cmp_eq_r a b c : cmp a b = Eq -> cmp c a = cmp c b.
Proof.
  intros H. rewrite (cmp_opp _ Hcmp a c), (cmp_opp _ Hcmp b c).
  f_equal. now apply cmp_eq_l.
Qed.

Lemma cmp_le_total a b : cmp a b <> Gt \/ cmp b a <> Gt.
Proof.
  rewrite (cmp_opp _ Hcmp a b). destruct (cmp a b); simpl; auto; left + right; congruence.
Qed.

Lemma cmp_le_trans a b c : cmp a b <> Gt -> cmp b c <> Gt -> cmp a c <> Gt.
Proof.
  intros Hab Hbc.
  destruct (cmp a b) eqn:E1; [| |congruence].
  - rewrite (cmp_eq_l _ Hcmp a b c E1). exact Hbc.
  - destruct (cmp b c) eqn:E2; [| |congruence].
    + rewrite <- (cmp_eq_r b c a E2), E1. congruence.
    + rewrite (cmp_lt_trans _ Hcmp a b c E1 E2). congruence.
Qed.

(** The order lifted to lists, the first difference deciding. *)
Lemma list_compare_order : order_cmp (list_compare cmp).
Proof.
  split.
  - induction a as [|x a IH]; destruct b as [|y b]; simpl; auto.
    rewrite (cmp_opp _ Hcmp x y). destruct (cmp x y); simpl; auto.
  - induction a as [|x a IH]; destruct b as [|y b]; simpl; try congruence.
    intros c. destruct (cmp x y) eqn:E; try congruence. intros H.
    destruct c as [|z c]; simpl; auto.
    rewrite (cmp_eq_l _ Hcmp x y z E). destruct (cmp y z); auto.
  - induction a as [|x a IH]; destruct b as [|y b]; destruct c as [|z c];
      simpl; try congruence.
    destruct (cmp x y) eqn:E1; try congruence; destruct (cmp y z) eqn:E2; try congruence;
      intros H1 H2.
    + rewrite (cmp_eq_l _ Hcmp x y z E1), E2. eauto.
    + now rewrite (cmp_eq_l _ Hcmp x y z E1), E2.
    + now rewrite <- (cmp_eq_r y z x E2), E1.
    + now rewrite (cmp_lt_trans _ Hcmp x y z E1 E2).
Qed.

End OrderCmp.

(** An order read through a function, and two orders one after the
    other. *)
Lemma order_cmp_on {A B} (f : A -> B) (cmp : B -> B -> comparison) :
  order_cmp cmp -> order_cmp (fun a b => cmp (f a) (f b)).
Proof.
  intros H. split; intros.
  - apply (cmp_opp _ H).
  - now apply (cmp_eq_l _ H).
  - eapply (cmp_lt_trans _ H); eauto.
Qed.

Lemma order_cmp_then {A} (c1 c2 : A -> A -> comparison) :
  order_cmp c1 -> order_cmp c2 ->
  order_cmp (fun a b => match c1 a b with Eq => c2 a b | c => c end).
Proof.
  intros H1 H2. split.
  - intros a b. rewrite (cmp_opp _ H1 a b), (cmp_opp _ H2 a b).
    destruct (c1 a b); reflexivity.
  - intros a b c. destruct (c1 a b) eqn:E; try congruence. intros E'.
    rewrite (cmp_eq_l _ H1 a b c E), (cmp_eq_l _ H2 a b c E'). reflexivity.
  - intros a b c.
    destruct (c1 a b) eqn:E1; try congruence; destruct (c1 b c) eqn:E2; try congruence;
      intros F1 F2.
    + rewrite (cmp_eq_l _ H1 a b c E1), E2. eapply (cmp_lt_trans _ H2); eauto.
    + now rewrite (cmp_eq_l _ H1 a b c E1), E2.
    + now rewrite <- (cmp_eq_r _ H1 b c a E2), E1.
    + now rewrite (cmp_lt_trans _ H1 a b c E1 E2).
Qed.

Lemma nat_compare_order : order_cmp Nat.compare.
Proof.
  split.
  - intros a b. apply Nat.compare_antisym.
  - intros a b c H. apply Nat.compare_eq in H. now subst.
  - intros a b c. rewrite !Nat.compare_lt_iff. lia.
Qed.

Lemma N_compare_order : order_cmp N.compare.
Proof.
  split.
  - intros a b. apply N.compare_antisym.
  - intros a b c H. apply N.compare_eq in H. now subst.
  - intros a b c. rewrite !N.compare_lt_iff. lia.
Qed.

Lemma Qc_compare_order : order_cmp Qccompare.
Proof.
  split.
  - intros a b. unfold Qccompare. symmetry. apply Qcompare_antisym.
  - intros a b c H. apply Qceq_alt in H. now subst.
  - intros a b c. rewrite <- !Qclt_alt. apply Qclt_trans.
Qed.

Lemma value_compare_order : order_cmp value_compare.
Proof.
  unfold value_compare.
  apply (order_cmp_then (fun a b => Nat.compare (class_rank a) (class_rank b))).
  - apply (order_cmp_on class_rank), nat_compare_order.
  - apply (order_cmp_then (fun a b => Qccompare (numeric a) (numeric b))).
    + apply (order_cmp_on numeric), Qc_compare_order.
    + apply (order_cmp_on chars), list_compare_order, N_compare_order.
Qed.

Lemma row_compare_order keys : order_cmp (row_compare keys).
Proof.
  unfold row_compare.
  apply (order_cmp_on (project keys)), list_compare_order, value_compare_order.
Qed.

(** ** The sort of ORDER BY *)

Lemma row_leb_le keys r1 r2 : row_leb keys r1 r2 = true <-> row_le keys r1 r2.
Proof.
  unfold row_leb, row_le. destruct (row_compare keys r1 r2); split; congruence.
Qed.

Lemma row_le_total keys r1 r2 : row_le keys r1 r2 \/ row_le keys r2 r1.
Proof. apply cmp_le_total, row_compare_order. Qed.

Lemma row_le_trans keys r1 r2 r3 :
  row_le keys r1 r2 -> row_le keys r2 r3 -> row_le keys r1 r3.
Proof. apply cmp_le_trans, row_compare_order. Qed.

Lemma insert_row_perm keys r l : Permutation (insert_row keys r l) (r :: l).
Proof.
  induction l as [|r' l IH]; simpl; [reflexivity|].
  destruct (row_leb keys r r'); [reflexivity|].
  rewrite IH. apply perm_swap.
Qed.

Lemma insert_row_hd keys r a l :
  row_le keys a r -> HdRel (row_le keys) a l -> HdRel (row_le keys) a (insert_row keys r l).
Proof.
  intros Har Hal. destruct l as [|r' l]; simpl; [now constructor|].
  destruct (row_leb keys r r'); constructor; [assumption|].
  now inversion Hal.
Qed.

Lemma insert_row_sorted keys r l :
  Sorted (row_le keys) l -> Sorted (row_le keys) (insert_row keys r l).
Proof.
  induction 1 as [|r' l Hs IH Hhd]; simpl; [repeat constructor|].
  destruct (row_leb keys r r') eqn:E.
  - apply row_leb_le in E. repeat constructor; assumption.
  - constructor; [assumption|]. apply insert_row_hd; [|assumption].
    destruct (row_le_total keys r r') as [H|H]; [|assumption].
    apply row_leb_le in H. congruence.
Qed.

Lemma order_rows_perm keys rows : Permutation (order_rows keys rows) rows.
Proof.
  induction rows as [|r rows IH]; simpl; [reflexivity|].
  rewrite insert_row_perm. now constructor.
Qed.

Lemma order_rows_sorted keys rows : StronglySorted (row_le keys) (order_rows keys rows).
Proof.
  apply Sorted_StronglySorted; [intros a b c; apply row_le_trans|].
  induction rows as [|r rows IH]; simpl; [constructor|].
  now apply insert_row_sorted.
Qed.

(** Without keys nothing moves: the rows come in the stored order. *)
Lemma order_rows_nil rows : order_rows [] rows = rows.
Proof.
  induction rows as [|r rows IH]; simpl; [reflexivity|].
  rewrite IH. destruct rows; reflexivity.
Qed.

(** ** Effects compose *)

Lemma same_world_refl st : same_world st st.
Proof. now split. Qed.

Lemma same_world_trans st1 st2 st3 :
  same_world st1 st2 -> same_world st2 st3 -> same_world st1 st3.
Proof. intros [] []. split; congruence. Qed.

Lemma effect_ret {A} (a : A) st : effect (ret a) st (Ok a) [] [].
Proof.
  exists st. rewrite !app_nil_r. auto using same_world_refl.
Qed.

Lemma effect_lift {A} (o : outcome A) st : effect (lift o) st o [] [].
Proof.
  exists st. rewrite !app_nil_r. auto using same_world_refl.
Qed.

Lemma effect_print s st : effect (print s) st (Ok tt) [s] [].
Proof.
  eexists. split; [reflexivity|]. simpl. rewrite app_nil_r.
  repeat split; reflexivity.
Qed.

Lemma effect_bind {A B} (m : M A) (k : A -> M B) st a r o1 q1 o2 q2 :
  effect m st (Ok a) o1 q1 ->
  (forall st1, same_world st st1 -> effect (k a) st1 r o2 q2) ->
  effect (bind m k) st r (o1 ++ o2) (q1 ++ q2).
Proof.
  intros (st1 & Hm & Hw & Ho & Hq) Hk.
  destruct (Hk st1 Hw) as (st2 & Hk2 & Hw2 & Ho2 & Hq2).
  exists st2. unfold bind. rewrite Hm. repeat split.
  - exact Hk2.
  - apply (same_world_trans _ _ _ Hw Hw2).
  - apply (same_world_trans _ _ _ Hw Hw2).
  - apply (same_world_trans _ _ _ Hw Hw2).
  - rewrite Ho2, Ho. now rewrite app_assoc.
  - rewrite Hq2, Hq. now rewrite app_assoc.
Qed.

Lemma effect_bind_raise {A B} (m : M A) (k : A -> M B) st e o q :
  effect m st (Raise e) o q -> effect (bind m k) st (Raise e) o q.
Proof.
  intros (st1 & Hm & H). exists st1. unfold bind. now rewrite Hm.
Qed.

Lemma reads_app qs1 qs2 : reads qs1 -> reads qs2 -> reads (qs1 ++ qs2).
Proof. apply Forall_app_2. Qed.

Lemma framed_at {A} (m : M A) st r st' out qs :
  m st = (r, st') -> same_world st st' ->
  stdout st' = stdout st ++ out -> executed st' = executed st ++ qs -> reads qs ->
  exists r out qs, effect m st r out qs /\ reads qs.
Proof. intros. exists r, out, qs. split; [exists st'; auto|assumption]. Qed.

Lemma framed_ret {A} (a : A) : framed (ret a).
Proof. intros st. exists (Ok a), [], []. split; [apply effect_ret|constructor]. Qed.

Lemma framed_lift {A} (o : outcome A) : framed (lift o).
Proof. intros st. exists o, [], []. split; [apply effect_lift|constructor]. Qed.

Lemma framed_print s : framed (print s).
Proof. intros st. exists (Ok tt), [s], []. split; [apply effect_print|constructor]. Qed.

Lemma framed_bind {A B} (m : M A) (k : A -> M B) :
  framed m -> (forall a, framed (k a)) -> framed (bind m k).
Proof.
  intros Hm Hk st. destruct (Hm st) as (r & o1 & q1 & He & Hr).
  destruct r as [a|e].
  - destruct He as (st1 & Em & Hw & Ho & Hq).
    destruct (Hk a st1) as (r2 & o2 & q2 & (st2 & Ek & Hw2 & Ho2 & Hq2) & Hr2).
    exists r2, (o1 ++ o2), (q1 ++ q2). split; [|now apply reads_app].
    exists st2. unfold bind. rewrite Em. repeat split; try exact Ek;
      try apply (same_world_trans _ _ _ Hw Hw2).
    + rewrite Ho2, Ho. now rewrite app_assoc.
    + rewrite Hq2, Hq. now rewrite app_assoc.
  - exists (Raise e), o1, q1. split; [now apply effect_bind_raise|assumption].
Qed.

Lemma framed_for_each {A} (xs : list A) (body : A -> M unit) :
  (forall x, framed (body x)) -> framed (for_each xs body).
Proof.
  intros Hb. induction xs as [|x xs IH]; simpl.
  - apply framed_ret.
  - apply framed_bind; [apply Hb|intros _; apply IH].
Qed.

Lemma framed_try body handler :
  framed body -> (forall e, framed (handler e)) ->
  framed (try_except_operational body handler).
Proof.
  intros Hb Hh st. destruct (Hb st) as (r & o1 & q1 & (st1 & Eb & Hw & Ho & Hq) & Hr).
  unfold try_except_operational.
  destruct r as [[]|[msg| | | |]];
    try solve [eexists _, o1, q1; split; [exists st1; rewrite Eb; auto|assumption]].
  destruct (Hh msg st1) as (r2 & o2 & q2 & (st2 & Ek & Hw2 & Ho2 & Hq2) & Hr2).
  exists r2, (o1 ++ o2), (q1 ++ q2). split; [|now apply reads_app].
  exists st2. rewrite Eb. repeat split; try exact Ek;
    try apply (same_world_trans _ _ _ Hw Hw2).
  - rewrite Ho2, Ho. now rewrite app_assoc.
  - rewrite Hq2, Hq. now rewrite app_assoc.
Qed.

(** ** The driver, seen through [effect] *)

Lemma ready_same_world cur p d st st' :
  same_world st st' -> ready cur p d st -> ready cur p d st'.
Proof. intros [_ Hf Hc] [H1 H2]. split; congruence. Qed.

Lemma ready_connection cur p d st :
  ready cur p d st ->
  exists c, connections st !! cur = Some c /\ conn_path c = p /\ conn_open c = true.
Proof.
  intros [H _]. unfold conn_view in H. rewrite list_lookup_fmap in H.
  destruct (connections st !! cur) as [c|]; [|discriminate].
  injection H as H1 H2. eauto.
Qed.

Lemma conn_view_insert st cur c c' :
  connections st !! cur = Some c ->
  conn_path c' = conn_path c -> conn_open c' = conn_open c ->
  (fun c => (conn_path c, conn_open c)) <$> <[cur := c']> (connections st) = conn_view st.
Proof.
  intros Hc Hp Ho. rewrite list_fmap_insert, Hp, Ho. unfold conn_view.
  apply list_insert_id. now rewrite list_lookup_fmap, Hc.
Qed.

Section DriverFacts.
Context {rt : Runtime}.

(** A reading statement leaves the database as it is. *)
Lemma exec_read q d rows d' :
  is_read q = true -> exec q d = Ok (rows, d') -> d' = d.
Proof.
  destruct q as [|arg|cols from keys| |]; simpl; try discriminate; intros _.
  - now intros [= _ <-].
  - destruct (pragma_argument arg) as [name|]; simpl; [|discriminate].
    destruct (find_relation name d); now intros [= _ <-].
  - destruct (find_relation from d) as [t|]; [|discriminate].
    destruct (resolve_columns cols (rel_columns t)); simpl; [|discriminate].
    destruct (resolve_columns keys (rel_columns t)); simpl; [|discriminate].
    now intros [= _ <-].
Qed.

Lemma framed_execute cur q : is_read q = true -> framed (execute cur q).
Proof.
  intros Hq st. destruct (execute cur q st) as [r st'] eqn:E.
  assert (Hsame : st' = st -> exists r out qs, effect (execute cur q) st r out qs /\ reads qs).
  { intros ->. apply (framed_at _ _ _ _ [] [] E); rewrite ?app_nil_r;
      auto using same_world_refl. constructor. }
  assert (Hlog : st' = set_executed (executed st ++ [q]) st ->
                 exists r out qs, effect (execute cur q) st r out qs /\ reads qs).
  { intros ->. apply (framed_at _ _ _ _ [] [q] E); rewrite ?app_nil_r; try reflexivity.
    - now split.
    - repeat constructor. assumption. }
  pose proof E as E0. unfold execute in E.
  destruct (connections st !! cur) as [c|] eqn:Ec; [|injection E as <- <-; auto].
  destruct (conn_open c); [|injection E as <- <-; auto].
  destruct (files st !! conn_path c) as [[d|]|] eqn:Ef; try (injection E as <- <-; auto).
  destruct (exec q d) as [[rows d']|e] eqn:Ex; [|injection E as <- <-; auto].
  apply (exec_read _ _ _ _ Hq) in Ex as ->. clear Hsame Hlog.
  injection E as <- <-.
  apply (framed_at _ _ _ _ [] [q] E0); simpl; rewrite ?app_nil_r; try reflexivity.
  - split; try reflexivity.
    + simpl. now apply insert_id.
    + unfold conn_view at 1. simpl. now apply (conn_view_insert st cur c).
  - repeat constructor. assumption.
Qed.

Lemma framed_fetchall cur : framed (fetchall cur).
Proof.
  intros st. destruct (fetchall cur st) as [r st'] eqn:E.
  apply (framed_at _ _ _ _ [] [] E); rewrite ?app_nil_r; [| | |constructor];
    unfold fetchall in E;
    (destruct (connections st !! cur) as [c|] eqn:Ec;
      [|injection E as <- <-; auto using same_world_refl]);
    (destruct (conn_open c);
      [|injection E as <- <-; auto using same_world_refl]);
    injection E as <- <-; try reflexivity.
  split; try reflexivity.
  unfold conn_view at 1. simpl. now apply (conn_view_insert st cur c).
Qed.

(** A statement that succeeds, followed by [fetchall]. *)
Lemma effect_query {B} cur q (k : list row -> M B) st p d rows d' r out qs :
  ready cur p d st -> exec q d = Ok (rows, d') -> is_read q = true ->
  (forall st1, same_world st st1 -> effect (k rows) st1 r out qs) ->
  effect (execute cur q ;;; x <- fetchall cur ;; k x) st r out (q :: qs).
Proof.
  intros Hr Ex Hq Hk. pose proof (exec_read _ _ _ _ Hq Ex) as ->.
  destruct (ready_connection _ _ _ _ Hr) as (c & Ec & Hp & Ho). destruct Hr as [Hv Hf].
  set (st2 := set_connections (<[cur := set_rows [] c]> (connections st))
                (set_executed (executed st ++ [q]) st)).
  assert (Hw : same_world st st2).
  { split; try reflexivity. unfold conn_view at 1. simpl.
    now apply (conn_view_insert st cur c). }
  destruct (Hk st2 Hw) as (st3 & Ek & Hw3 & Ho3 & Hq3).
  exists st3. split.
  - unfold bind, execute, fetchall. rewrite Ec, Ho, Hp, Hf, Ex. simpl.
    rewrite list_lookup_insert_eq by (eapply lookup_lt_Some; eassumption).
    simpl. rewrite Ho, list_insert_insert_eq, insert_id by assumption.
    exact Ek.
  - split; [apply (same_world_trans _ _ _ Hw Hw3)|].
    split; [exact Ho3|]. rewrite Hq3. simpl. now rewrite <- app_assoc.
Qed.

(** A statement that fails: what follows it does not run. *)
Lemma effect_query_raise {B} cur q (k : M B) st p d e :
  ready cur p d st -> exec q d = Raise e ->
  effect (execute cur q ;;; k) st (Raise e) [] [q].
Proof.
  intros Hr Ex.
  destruct (ready_connection _ _ _ _ Hr) as (c & Ec & Hp & Ho). destruct Hr as [Hv Hf].
  eexists. split.
  - unfold bind, execute. rewrite Ec, Ho, Hp, Hf, Ex. reflexivity.
  - simpl. rewrite app_nil_r. repeat split; reflexivity.
Qed.

End DriverFacts.

(** ** What a listing prints *)

Lemma effect_try_pass body handler st r o q :
  effect body st r o q -> (forall msg, r <> Raise (OperationalError msg)) ->
  effect (try_except_operational body handler) st r o q.
Proof.
  intros (st1 & E & H) Hr. exists st1. unfold try_except_operational. rewrite E.
  destruct r as [|[]]; auto. now destruct (Hr msg).
Qed.

Lemma effect_try_caught body handler st msg o q r o2 q2 :
  effect body st (Raise (OperationalError msg)) o q ->
  (forall st1, same_world st st1 -> effect (handler msg) st1 r o2 q2) ->
  effect (try_except_operational body handler) st r (o ++ o2) (q ++ q2).
Proof.
  intros (st1 & E & Hw & Ho & Hq) Hh.
  destruct (Hh st1 Hw) as (st2 & E2 & Hw2 & Ho2 & Hq2).
  exists st2. unfold try_except_operational. rewrite E. repeat split; try exact E2;
    try apply (same_world_trans _ _ _ Hw Hw2).
  - rewrite Ho2, Ho. now rewrite app_assoc.
  - rewrite Hq2, Hq. now rewrite app_assoc.
Qed.

Lemma effect_for_each_print line rows st :
  effect (for_each rows (fun r => l <- lift (line r) ;; print l)) st
         (snd (render line rows)) (fst (render line rows)) [].
Proof.
  revert st. induction rows as [|r rows IH]; intros st; simpl.
  - apply effect_ret.
  - destruct (line r) as [l|e] eqn:El; simpl.
    + change (l :: fst (render line rows)) with ([l] ++ fst (render line rows)).
      change (@nil stmt) with (@nil stmt ++ []).
      eapply effect_bind; [|intros; apply IH].
      change [l] with ([] ++ [l]). change (@nil stmt) with (@nil stmt ++ []).
      eapply effect_bind; [apply effect_lift|]. intros. apply effect_print.
    + apply effect_bind_raise. apply effect_bind_raise. apply effect_lift.
Qed.

Lemma render_no_operational line rows msg :
  no_operational line -> snd (render line rows) <> Raise (OperationalError msg).
Proof.
  intros Hl. induction rows as [|r rows IH]; simpl; [discriminate|].
  destruct (line r) eqn:E; simpl; [assumption|].
  intros [= ->]. now apply (Hl r msg).
Qed.

Section Listing.
Context {rt : Runtime}.

Lemma listing_effect cur title q header rule line none_msg err_msg st p d :
  ready cur p d st -> is_read q = true -> no_operational line ->
  effect (listing cur title q header rule line none_msg err_msg) st
         (fst (listing_report header rule line none_msg err_msg (exec q d)))
         (title :: snd (listing_report header rule line none_msg err_msg (exec q d)))
         [q].
Proof.
  intros Hr Hq Hl. unfold listing.
  change (title :: ?l) with ([title] ++ l). change [q] with ([] ++ [q]).
  eapply effect_bind; [apply effect_print|]. intros st1 Hw.
  apply (ready_same_world _ _ _ _ _ Hw) in Hr. clear st Hw.
  destruct (exec q d) as [[rows d']|e] eqn:Ex.
  - apply effect_try_pass.
    + eapply effect_query; eauto. intros st2 _.
      destruct rows as [|r rows]; simpl; [apply effect_print|].
      change (header :: rule :: ?l) with ([header] ++ [rule] ++ l).
      change (@nil stmt) with (@nil stmt ++ [] ++ []).
      eapply effect_bind; [apply effect_print|]. intros.
      eapply effect_bind; [apply effect_print|]. intros.
      apply (effect_for_each_print line (r :: rows)).
    + intros msg. destruct rows as [|r rows]; [discriminate|].
      apply render_no_operational, Hl.
  - pose proof (effect_query_raise cur q
                  (rows <- fetchall cur ;;
                   match rows with
                   | _ :: _ => print header ;;; print rule ;;;
                               for_each rows (fun r => l <- lift (line r) ;; print l)
                   | [] => print none_msg
                   end) st1 p d e Hr Ex) as He.
    destruct e as [msg| | | |]; simpl;
      try (apply effect_try_pass; [exact He|discriminate]).
    change [err_msg ++ msg] with ([] ++ [err_msg ++ msg]).
    change [q] with ([q] ++ []).
    eapply effect_try_caught; [exact He|]. intros. apply effect_print.
Qed.

End Listing.

(** ** The sections of [examine_database] *)

Ltac frame_step :=
  first
    [ apply framed_print
    | apply framed_ret
    | apply framed_lift
    | apply framed_fetchall
    | apply framed_execute; reflexivity
    | apply framed_bind; [|intros ?]
    | apply framed_for_each; intros ?
    | apply framed_try; [|intros ?]
    | match goal with |- framed (match ?x with _ => _ end) => destruct x end ].

Section Sections.
Context {rt : Runtime}.

Lemma projects_section_listing cur :
  projects_section cur =
  listing cur ([newline; bar_chart] ++ lit " PROJECTS:") projects_query
    (lit "  ID | Name                 | TaskCount | NextNumber | LastUpdated")
    (lit "  ---|----------------------|-----------|------------|-------------")
    project_line (lit "  No projects found.") (lit "  Error reading projects: ").
Proof. reflexivity. Qed.

Lemma tasks_section_listing cur :
  tasks_section cur =
  listing cur ([newline; memo] ++ lit " TASK SPECS:") tasks_query
    (lit "  ID | ProjID | Num | Title                | Type    | Status | Created")
    (lit "  ---|--------|-----|----------------------|---------|--------|----------")
    task_line (lit "  No task specs found.") (lit "  Error reading tasks: ").
Proof. reflexivity. Qed.

Lemma framed_listing cur title q header rule line none_msg err_msg :
  is_read q = true ->
  framed (listing cur title q header rule line none_msg err_msg).
Proof.
  intros Hq. unfold listing. repeat frame_step. now apply framed_execute.
Qed.

Lemma framed_schema_section cur : framed (schema_section cur).
Proof. unfold schema_section. repeat frame_step. Qed.

Lemma framed_projects_section cur : framed (projects_section cur).
Proof. rewrite projects_section_listing. now apply framed_listing. Qed.

Lemma framed_tasks_section cur : framed (tasks_section cur).
Proof. rewrite tasks_section_listing. now apply framed_listing. Qed.

(** Formatting raises [TypeError] or nothing, and indexing inside the
    tuple nothing at all. *)
Lemma format_width_cases w v :
  (exists s, format_width w v = Ok s) \/ (exists msg, format_width w v = Raise (TypeError msg)).
Proof. destruct v; simpl; eauto. Qed.

Lemma slice10_cases v :
  (exists v', slice10 v = Ok v') \/ (exists msg, slice10 v = Raise (TypeError msg)).
Proof. destruct v; simpl; eauto. Qed.

Lemma index_cases t i :
  (exists v, index t i = Ok v) \/ (exists msg, index t i = Raise (IndexError msg)).
Proof. unfold index. destruct (t !! i); eauto. Qed.

Ltac line_step :=
  match goal with
  | |- context [obind (index ?t ?i) _] =>
      destruct (index_cases t i) as [[? ->]|[? ->]]; simpl; [|discriminate]
  | |- context [obind (format_width ?w ?v) _] =>
      destruct (format_width_cases w v) as [[? ->]|[? ->]]; simpl; [|discriminate]
  | |- context [obind (slice10 ?v) _] =>
      destruct (slice10_cases v) as [[? ->]|[? ->]]; simpl; [|discriminate]
  end.

Lemma project_line_no_operational : no_operational project_line.
Proof. intros r msg. unfold project_line. repeat line_step. discriminate. Qed.

Lemma task_line_no_operational : no_operational task_line.
Proof. intros r msg. unfold task_line. repeat line_step. discriminate. Qed.

End Sections.

(** ** [examine_database] as a whole *)

Section Examine.
Context {rt : Runtime}.

Lemma close_view st conn p v :
  conn_view st = v ++ [(p, true)] -> conn = length v ->
  exists st', close conn st = (Ok tt, st') /\
    environ st' = environ st /\ files st' = files st /\ stdout st' = stdout st /\
    executed st' = executed st /\ conn_view st' = v ++ [(p, false)].
Proof.
  intros Hv ->. unfold close.
  assert (Hl : conn_view st !! length v = Some (p, true)).
  { rewrite Hv. now apply list_lookup_middle. }
  unfold conn_view in Hl. rewrite list_lookup_fmap in Hl.
  destruct (connections st !! length v) as [c|] eqn:Ec; [|discriminate].
  injection Hl as Hp Ho.
  eexists. split; [reflexivity|]. simpl. repeat split.
  unfold conn_view. simpl. rewrite list_fmap_insert. simpl.
  fold (conn_view st). rewrite Hv, Hp.
  replace (length v) with (length v + 0)%nat by lia.
  now rewrite insert_app_r.
Qed.

(** The whole function: what it may change is the file it creates
    when there is none, its output, the statements it has sent, all of
    them reading, and its own connection, which is closed exactly when
    the function returns. *)
Lemma examine_database_effect p st :
  exists r st' out qs,
    examine_database p st = (r, st') /\
    environ st' = environ st /\ files st' = opened p (files st) /\
    stdout st' = stdout st ++ out /\
    executed st' = executed st ++ qs /\ reads qs /\
    conn_view st' = conn_view st ++ [(p, left_open r)].
Proof.
  set (st1 := set_connections
                (connections st ++ [{| conn_path := p; conn_open := true; conn_rows := [] |}])
                (set_files (opened p (files st))
                   (set_stdout ((stdout st ++ [lit "Examining database: " ++ p])
                                  ++ [repeat_char 61%N 60]) st))).
  set (cur := length (connections st)).
  assert (E0 : examine_database p st =
               (schema_section cur ;;; projects_section cur ;;; tasks_section cur ;;;
                close cur) st1).
  { reflexivity. }
  assert (V1 : conn_view st1 = conn_view st ++ [(p, true)]).
  { unfold conn_view, st1. simpl. now rewrite fmap_app. }
  assert (Hcur : cur = length (conn_view st)).
  { unfold conn_view. now rewrite length_fmap. }
  rewrite E0. clear E0.
  destruct (framed_schema_section cur st1)
    as (r1 & o1 & q1 & (s2 & E1 & [We1 Wf1 Wc1] & O1 & Q1) & R1).
  unfold bind at 1. rewrite E1. destruct r1 as [[]|e].
  2:{ exists (Raise e), s2, ([lit "Examining database: " ++ p; repeat_char 61%N 60] ++ o1), q1.
      rewrite We1, Wf1, Wc1, O1, Q1, V1. simpl. rewrite <- !app_assoc. auto 10. }
  destruct (framed_projects_section cur s2)
    as (r2 & o2 & q2 & (s3 & E2 & [We2 Wf2 Wc2] & O2 & Q2) & R2).
  unfold bind at 1. rewrite E2. destruct r2 as [[]|e].
  2:{ exists (Raise e), s3,
        ([lit "Examining database: " ++ p; repeat_char 61%N 60] ++ o1 ++ o2), (q1 ++ q2).
      rewrite We2, Wf2, Wc2, O2, Q2, We1, Wf1, Wc1, O1, Q1, V1. simpl.
      rewrite <- !app_assoc. auto 10 using reads_app. }
  destruct (framed_tasks_section cur s3)
    as (r3 & o3 & q3 & (s4 & E3 & [We3 Wf3 Wc3] & O3 & Q3) & R3).
  unfold bind at 1. rewrite E3. destruct r3 as [[]|e].
  2:{ exists (Raise e), s4,
        ([lit "Examining database: " ++ p; repeat_char 61%N 60] ++ o1 ++ o2 ++ o3),
        (q1 ++ q2 ++ q3).
      rewrite We3, Wf3, Wc3, O3, Q3, We2, Wf2, Wc2, O2, Q2, We1, Wf1, Wc1, O1, Q1, V1. simpl.
      rewrite <- !app_assoc. auto 10 using reads_app. }
  destruct (close_view s4 cur p (conn_view st)) as (s5 & E4 & We4 & Wf4 & O4 & Q4 & V4);
    [congruence|assumption|].
  exists (Ok tt), s5,
    ([lit "Examining database: " ++ p; repeat_char 61%N 60] ++ o1 ++ o2 ++ o3),
    (q1 ++ q2 ++ q3).
  rewrite E4, We4, Wf4, O4, Q4, V4, We3, Wf3, O3, Q3, We2, Wf2, O2, Q2, We1, Wf1, O1, Q1.
  simpl. rewrite <- !app_assoc. auto 10 using reads_app.
Qed.

End Examine.

(** ** Reaching the TaskSpecs section *)

Section Prologue.
Context {rt : Runtime}.

Lemma examine_database_split p st :
  examine_database p st = (cur <- examine_prologue p ;; tasks_section cur ;;; close cur) st.
Proof.
  set (st0 := set_connections
                (connections st ++ [{| conn_path := p; conn_open := true; conn_rows := [] |}])
                (set_files (opened p (files st))
                   (set_stdout ((stdout st ++ [lit "Examining database: " ++ p])
                                  ++ [repeat_char 61%N 60]) st))).
  set (cur := length (connections st)).
  transitivity ((schema_section cur ;;; projects_section cur ;;; tasks_section cur ;;;
                 close cur) st0); [reflexivity|].
  transitivity ((c <- (schema_section cur ;;; projects_section cur ;;; ret cur) ;;
                 tasks_section c ;;; close c) st0); [|reflexivity].
  unfold bind, ret.
  destruct (schema_section cur st0) as [[[]|e1] s2]; [|reflexivity].
  destruct (projects_section cur s2) as [[[]|e2] s3]; reflexivity.
Qed.

Lemma examine_prologue_effect p st r st1 :
  examine_prologue p st = (r, st1) ->
  environ st1 = environ st /\ files st1 = opened p (files st) /\
  conn_view st1 = conn_view st ++ [(p, true)] /\
  forall cur, r = Ok cur -> cur = length (conn_view st).
Proof.
  set (st0 := set_connections
                (connections st ++ [{| conn_path := p; conn_open := true; conn_rows := [] |}])
                (set_files (opened p (files st))
                   (set_stdout ((stdout st ++ [lit "Examining database: " ++ p])
                                  ++ [repeat_char 61%N 60]) st))).
  set (cur := length (connections st)).
  assert (E0 : examine_prologue p st =
               (schema_section cur ;;; projects_section cur ;;; ret cur) st0) by reflexivity.
  assert (V0 : conn_view st0 = conn_view st ++ [(p, true)]).
  { unfold conn_view, st0. simpl. now rewrite fmap_app. }
  assert (Hcur : cur = length (conn_view st)).
  { unfold conn_view. now rewrite length_fmap. }
  rewrite E0. clear E0.
  destruct (framed_schema_section cur st0)
    as (r1 & o1 & q1 & (s2 & E1 & [We1 Wf1 Wc1] & _) & _).
  unfold bind at 1. rewrite E1. destruct r1 as [[]|e].
  2:{ intros [= <- <-]. rewrite We1, Wf1, Wc1, V0. now repeat split. }
  destruct (framed_projects_section cur s2)
    as (r2 & o2 & q2 & (s3 & E2 & [We2 Wf2 Wc2] & _) & _).
  unfold bind at 1. rewrite E2. destruct r2 as [[]|e].
  2:{ intros [= <- <-]. rewrite We2, Wf2, Wc2, We1, Wf1, Wc1, V0. now repeat split. }
  unfold ret. intros [= <- <-]. rewrite We2, Wf2, Wc2, We1, Wf1, Wc1, V0.
  repeat split. now intros ? [= <-].
Qed.

(** After a prologue that returned, the cursor is ready on the file. *)
Lemma examine_prologue_ready p d st cur st1 :
  files st !! p = Some (SqliteFile d) ->
  examine_prologue p st = (Ok cur, st1) ->
  ready cur p d st1.
Proof.
  intros Hf E. destruct (examine_prologue_effect _ _ _ _ E) as (_ & Hf1 & Hv & Hc).
  rewrite (Hc cur eq_refl). split.
  - rewrite Hv. now apply list_lookup_middle.
  - rewrite Hf1. unfold opened. now rewrite Hf.
Qed.

End Prologue.

(** ** [find_database] and [main] *)

Lemma set_stdout_set_stdout a b st : set_stdout a (set_stdout b st) = set_stdout a st.
Proof. reflexivity. Qed.

Section Main.
Context {rt : Runtime}.

(** [find_database] changes nothing, raises nothing, and returns the
    name of a file that exists, if any. *)
Lemma find_database_pure st :
  exists o, find_database st = (Ok o, st) /\
            forall p, o = Some p -> is_Some (files st !! p).
Proof.
  unfold find_database, bind, environ_get, path_exists, ret.
  destruct (environ st !! lit "LOCALAPPDATA") as [[|c dir]|]; simpl.
  2: destruct (bool_decide (is_Some (files st !! app_data_db (c :: dir)))) eqn:E1.
  2:{ eexists. split; [reflexivity|]. intros p [= <-]. now apply bool_decide_eq_true in E1. }
  all: destruct (bool_decide (is_Some (files st !! db_file_name))) eqn:E2;
    eexists; (split; [reflexivity|]); intros p; try discriminate;
    intros [= <-]; now apply bool_decide_eq_true in E2.
Qed.

Lemma not_found_report_run st :
  not_found_report st = (Ok tt, set_stdout (stdout st ++ not_found_lines st) st).
Proof.
  unfold not_found_report, bind, print, environ_get_default, not_found_lines. simpl.
  rewrite !set_stdout_set_stdout, <- !app_assoc. reflexivity.
Qed.

Lemma opened_existing (p : str) (fs : gmap (list N) file) : is_Some (fs !! p) -> opened p fs = fs.
Proof. intros [f Hf]. unfold opened. now rewrite Hf. Qed.

(** With no file at either place there is nothing to return. *)
Lemma find_database_none st :
  (forall dir, environ st !! lit "LOCALAPPDATA" = Some dir ->
     files st !! app_data_db dir = None) ->
  files st !! db_file_name = None ->
  find_database st = (Ok None, st).
Proof.
  intros Ha Hc. unfold find_database, bind, environ_get, path_exists, ret.
  assert (Hb : bool_decide (is_Some (files st !! db_file_name)) = false).
  { apply bool_decide_eq_false_2. rewrite Hc. now intros [? ?]. }
  destruct (environ st !! lit "LOCALAPPDATA") as [[|c dir]|]; simpl; rewrite ?Hb; try reflexivity.
  rewrite (Ha _ eq_refl). rewrite bool_decide_eq_false_2 by (now intros [? ?]).
  now rewrite Hb.
Qed.

(** A run of [main] leaves the environment and the files as they were
    and sends the driver reading statements only. *)
Lemma main_effect st :
  exists r st' out qs,
    main st = (r, st') /\ environ st' = environ st /\ files st' = files st /\
    stdout st' = stdout st ++ out /\ executed st' = executed st ++ qs /\ reads qs.
Proof.
  set (st2 := set_stdout ((stdout st ++ [[magnifier] ++ lit " TaskMaster Database Debugger"])
                            ++ [repeat_char 61%N 40]) st).
  assert (Hst2 : stdout st2 = stdout st ++ banner).
  { unfold st2, banner. simpl. now rewrite <- app_assoc. }
  assert (E0 : main st =
    (db_path <- find_database ;;
     match db_path with
     | Some path =>
         if truthy db_path then
           examine_database path ;;;
           print ([newline; check_mark] ++ lit " Database examination complete!") ;;;
           print ([newline] ++ lit "If you see issues:") ;;;
           print (lit "1. No projects: Create a project in TaskMaster first") ;;;
           print (lit "2. Missing NextNumber column: Database migration may have failed") ;;;
           print (lit "3. No task specs: Try saving a spec and check again")
         else not_found_report
     | None => not_found_report
     end) st2).
  { reflexivity. }
  assert (He2 : environ st2 = environ st) by reflexivity.
  assert (Hf2 : files st2 = files st) by reflexivity.
  assert (Hq2 : executed st2 = executed st) by reflexivity.
  rewrite E0. clear E0. clearbody st2. unfold bind at 1.
  destruct (find_database_pure st2) as (o & -> & Ho).
  assert (Hnf : exists r st' out qs,
             not_found_report st2 = (r, st') /\ environ st' = environ st /\
             files st' = files st /\ stdout st' = stdout st ++ out /\
             executed st' = executed st ++ qs /\ reads qs).
  { rewrite not_found_report_run. eexists (Ok tt), _, (banner ++ not_found_lines st2), [].
    split; [reflexivity|]. simpl. rewrite Hst2, app_nil_r, <- app_assoc.
    repeat split; try assumption. constructor. }
  destruct o as [[|c path]|]; simpl; try exact Hnf. clear Hnf.
  destruct (examine_database_effect (c :: path) st2)
    as (r & s3 & out & qs & E & He & Hf & Hout & Hq & Hr & _).
  rewrite (opened_existing _ _ (Ho _ eq_refl)) in Hf.
  unfold bind at 1. rewrite E. destruct r as [[]|e].
  - eexists (Ok tt), _, (banner ++ out ++ closing_lines), qs.
    unfold bind, print. split; [reflexivity|]. simpl.
    rewrite He, Hf, Hout, Hq, Hst2, He2, Hf2, Hq2. unfold closing_lines.
    rewrite <- !app_assoc. auto.
  - exists (Raise e), s3, (banner ++ out), qs.
    rewrite He, Hf, Hout, Hq, Hst2, He2, Hf2, Hq2. rewrite <- !app_assoc. auto 10.
Qed.

End Main.

(** ** The two row formats, field by field *)

Section Lines.
Context {rt : Runtime}.

Lemma obind_ok {A B} (c : outcome A) (k : A -> outcome B) b :
  obind c k = Ok b -> exists a, c = Ok a /\ k a = Ok b.
Proof. destruct c; simpl; [eauto|discriminate]. Qed.

Lemma index_ok t i v : index t i = Ok v -> t !! i = Some v.
Proof. unfold index. destruct (t !! i); now intros [= ->]. Qed.

Ltac fields H :=
  repeat
    (let a := fresh "x" in
     let Ha := fresh "Hx" in
     apply obind_ok in H as (a & Ha & H);
     try apply index_ok in Ha).

Lemma project_line_fields project line :
  project_line project = Ok line ->
  exists p0 p1 p2 p3 p4 f0 f1 f2 f3,
    project !! 0%nat = Some p0 /\ project !! 1%nat = Some p1 /\ project !! 2%nat = Some p2 /\
    project !! 3%nat = Some p3 /\ project !! 4%nat = Some p4 /\
    format_width 2 p0 = Ok f0 /\ format_width 20 p1 = Ok f1 /\
    format_width 9 p2 = Ok f2 /\ format_width 10 p3 = Ok f3 /\
    line = lit "  " ++ f0 ++ lit " | " ++ f1 ++ lit " | " ++ f2 ++ lit " | " ++ f3
             ++ lit " | " ++ format_plain p4.
Proof.
  unfold project_line. intros H. fields H. injection H as <-.
  eauto 20.
Qed.

Lemma task_line_fields task line :
  task_line task = Ok line ->
  exists t0 t1 t2 t3 t4 t5 t6 f0 f1 f2 f3 f4 f5 created,
    task !! 0%nat = Some t0 /\ task !! 1%nat = Some t1 /\ task !! 2%nat = Some t2 /\
    task !! 3%nat = Some t3 /\ task !! 4%nat = Some t4 /\ task !! 5%nat = Some t5 /\
    task !! 6%nat = Some t6 /\
    format_width 2 t0 = Ok f0 /\ format_width 6 t1 = Ok f1 /\ format_width 3 t2 = Ok f2 /\
    format_width 20 t3 = Ok f3 /\ format_width 7 t4 = Ok f4 /\ format_width 6 t5 = Ok f5 /\
    slice10 t6 = Ok created /\
    line = lit "  " ++ f0 ++ lit " | " ++ f1 ++ lit " | " ++ f2 ++ lit " | " ++ f3
             ++ lit " | " ++ f4 ++ lit " | " ++ f5 ++ lit " | " ++ format_plain created.
Proof.
  unfold task_line. intros H. fields H. injection H as <-.
  eauto 40.
Qed.

Lemma ljust_short (w : nat) (s : str) :
  (length s <= w)%nat -> length (ljust w s) = w /\ take (length s) (ljust w s) = s.
Proof.
  intros H. unfold ljust, repeat_char. split.
  - rewrite length_app, length_replicate. lia.
  - now rewrite take_app_length.
Qed.

Lemma ljust_long (w : nat) (s : str) : (w <= length s)%nat -> ljust w s = s.
Proof.
  intros H. unfold ljust, repeat_char.
  replace (w - length s)%nat with 0%nat by lia. apply app_nil_r.
Qed.

End Lines.

(** ** The rows of the TaskSpecs statement *)

(** On integers the order of values is the order of the integers, so
    for integer keys [task_le] is the lexicographic order of the pairs
    (ProjectId, Number). *)
Lemma value_compare_integers a b : value_compare (Integer a) (Integer b) = (a ?= b)%Z.
Proof.
  unfold value_compare, numeric, chars, class_rank, Qccompare. simpl.
  rewrite <- Qred_compare. unfold Qcompare. simpl. rewrite !Z.mul_1_r.
  destruct (a ?= b)%Z; reflexivity.
Qed.

Lemma task_le_integers id1 p1 n1 rest1 id2 p2 n2 rest2 :
  task_le (id1 :: Integer p1 :: Integer n1 :: rest1)
          (id2 :: Integer p2 :: Integer n2 :: rest2)
  <-> (p1 < p2 \/ (p1 = p2 /\ n1 <= n2))%Z.
Proof.
  unfold task_le, cell. simpl. rewrite !value_compare_integers.
  destruct (Z.compare_spec p1 p2) as [->| |]; [|split; [lia|auto]|split; [contradiction|lia]].
  destruct (Z.compare_spec n1 n2); split; try lia; try congruence.
Qed.

Lemma resolve_columns_cons n names cols idxs :
  resolve_columns (n :: names) cols = Ok idxs ->
  exists i rest, column_index n cols = Some i /\
                 resolve_columns names cols = Ok rest /\ idxs = i :: rest.
Proof.
  simpl. destruct (column_index n cols) as [i|]; [|discriminate].
  destruct (resolve_columns names cols) as [rest|]; simpl; [|discriminate].
  intros [= <-]. eauto.
Qed.

Lemma resolve_columns_nil cols idxs : resolve_columns [] cols = Ok idxs -> idxs = [].
Proof. now intros [= <-]. Qed.

Section TaskRows.
Context {rt : Runtime}.

Lemma exec_select cols from keys d rows d' :
  exec (Select cols from keys) d = Ok (rows, d') ->
  exists t idxs ks,
    find_relation from d = Some t /\
    resolve_columns cols (rel_columns t) = Ok idxs /\
    resolve_columns keys (rel_columns t) = Ok ks /\
    rows = map (project idxs) (order_rows ks (rel_rows t)).
Proof.
  simpl. destruct (find_relation from d) as [t|]; [|discriminate].
  destruct (resolve_columns cols (rel_columns t)) as [idxs|] eqn:E1; simpl; [|discriminate].
  destruct (resolve_columns keys (rel_columns t)) as [ks|] eqn:E2; simpl; [|discriminate].
  intros [= <- <-]. exists t, idxs, ks. auto.
Qed.

(** A SELECT fails in one way only: a table or a column it names is
    not there, which the driver reports as an [OperationalError]. *)
Lemma select_failure cols from keys d e :
  exec (Select cols from keys) d = Raise e ->
  e = no_such_table from \/
  exists c, In c (cols ++ keys) /\ e = OperationalError (lit "no such column: " ++ c).
Proof.
  assert (Hres : forall names columns e0,
             resolve_columns names columns = Raise e0 ->
             exists c, In c names /\ e0 = OperationalError (lit "no such column: " ++ c)).
  { induction names as [|n names IH]; simpl; intros columns e0; [discriminate|].
    destruct (column_index n columns).
    - destruct (resolve_columns names columns) eqn:E; simpl; [discriminate|].
      intros [= <-]. destruct (IH _ _ E) as (c & Hc & ->). eauto.
    - intros [= <-]. eauto. }
  simpl. destruct (find_relation from d) as [t|]; [|intros [= <-]; auto].
  destruct (resolve_columns cols (rel_columns t)) as [idxs|e1] eqn:E1; simpl.
  - destruct (resolve_columns keys (rel_columns t)) as [ks|e2] eqn:E2; simpl; [discriminate|].
    intros [= <-]. destruct (Hres _ _ _ E2) as (c & Hc & ->).
    right. exists c. split; [apply in_or_app; auto|reflexivity].
  - intros [= <-]. destruct (Hres _ _ _ E1) as (c & Hc & ->).
    right. exists c. split; [apply in_or_app; auto|reflexivity].
Qed.

(** The rows of the TaskSpecs statement: seven cells each, taken from
    the stored rows in the order of (ProjectId, Number). *)
Lemma tasks_query_rows d rows d' :
  exec tasks_query d = Ok (rows, d') ->
  exists t i0 i1 i2 i3 i4 i5 i6,
    find_relation (lit "TaskSpecs") d = Some t /\
    rows = map (project [i0; i1; i2; i3; i4; i5; i6]) (order_rows [i1; i2] (rel_rows t)).
Proof.
  intros H. apply exec_select in H as (t & idxs & ks & Ht & Hi & Hk & ->).
  repeat (apply resolve_columns_cons in Hi as (? & ? & ? & Hi & ->)).
  apply resolve_columns_nil in Hi as ->.
  repeat (apply resolve_columns_cons in Hk as (? & ? & ? & Hk & ->)).
  apply resolve_columns_nil in Hk as ->.
  repeat match goal with
         | H1 : column_index ?n ?c = Some ?a, H2 : column_index ?n ?c = Some ?b |- _ =>
             rewrite H1 in H2; injection H2 as <-
         end.
  exists t. do 7 eexists. split; [exact Ht|reflexivity].
Qed.

Lemma tasks_query_rows_length d rows d' :
  exec tasks_query d = Ok (rows, d') -> Forall (fun r => length r = 7%nat) rows.
Proof.
  intros H. apply tasks_query_rows in H as (t & i0 & i1 & i2 & i3 & i4 & i5 & i6 & _ & ->).
  induction (order_rows [i1; i2] (rel_rows t)); simpl; constructor; auto.
Qed.

Lemma tasks_query_rows_sorted d rows d' :
  exec tasks_query d = Ok (rows, d') -> StronglySorted task_le rows.
Proof.
  intros H. apply tasks_query_rows in H as (t & i0 & i1 & i2 & i3 & i4 & i5 & i6 & _ & ->).
  apply (StronglySorted_fmap (project [i0; i1; i2; i3; i4; i5; i6]) (row_le [i1; i2]));
    [|apply order_rows_sorted].
  intros r1 r2. unfold row_le, row_compare, task_le, project, cell. simpl.
  destruct (value_compare (nth i1 r1 Null) (nth i1 r2 Null)); auto.
  destruct (value_compare (nth i2 r1 Null) (nth i2 r2 Null)); auto.
Qed.

(** The rows that get printed are the first ones, up to the first that
    cannot be formatted. *)
Lemma render_prefix line rows :
  exists printed,
    printed `prefix_of` rows /\
    Forall2 (fun r l => line r = Ok l) printed (fst (render line rows)) /\
    (snd (render line rows) = Ok tt -> printed = rows).
Proof.
  induction rows as [|r rows (printed & Hp & Hl & Hr)]; simpl.
  - exists []. split; [apply prefix_nil|]. split; [constructor|reflexivity].
  - destruct (line r) as [l|e] eqn:E; simpl.
    + exists (r :: printed). split; [now apply prefix_cons|].
      split; [now constructor|]. intros H. f_equal. auto.
    + exists []. split; [apply prefix_nil|]. split; [constructor|discriminate].
Qed.

Lemma task_line_seven task :
  length task = 7%nat ->
  (exists l, task_line task = Ok l) \/ (exists msg, task_line task = Raise (TypeError msg)).
Proof.
  intros H. do 8 (destruct task as [|? task]; try discriminate). clear H.
  unfold task_line, index. simpl.
  repeat match goal with
         | |- context [obind (format_width ?w ?v) _] =>
             destruct (format_width_cases w v) as [[? ->]|[? ->]]; simpl; [|eauto]
         | |- context [obind (slice10 ?v) _] =>
             destruct (slice10_cases v) as [[? ->]|[? ->]]; simpl; [|eauto]
         end.
  eauto.
Qed.

Lemma task_line_unsubscriptable task :
  length task = 7%nat -> unsubscriptable (cell task 6) ->
  exists msg, task_line task = Raise (TypeError msg).
Proof.
  intros H. do 8 (destruct task as [|? task]; try discriminate). clear H.
  unfold cell. simpl. intros Hv.
  unfold task_line, index. simpl.
  repeat match goal with
         | |- context [obind (format_width ?w ?v) _] =>
             destruct (format_width_cases w v) as [[? ->]|[? ->]]; simpl; [|eauto]
         end.
  match goal with
  | |- context [slice10 ?v] => destruct v; simpl; try contradiction; eauto
  end.
Qed.

Lemma render_unsubscriptable rows :
  Forall (fun r => length r = 7%nat) rows ->
  Exists (fun task => unsubscriptable (cell task 6)) rows ->
  exists msg, snd (render task_line rows) = Raise (TypeError msg).
Proof.
  induction 1 as [|r rows Hr Hrows IH]; intros Hex; [inversion Hex|]. simpl.
  destruct (task_line_seven r Hr) as [[l El]|[msg El]]; rewrite El; simpl; [|eauto].
  inversion Hex as [? ? Hbad|? ? Hbad]; subst.
  - destruct (task_line_unsubscriptable r Hr Hbad) as [msg E]. congruence.
  - auto.
Qed.

(** [conn.close()] on a connection that is open. *)
Lemma close_open st cur p :
  conn_view st !! cur = Some (p, true) ->
  exists st', close cur st = (Ok tt, st') /\ conn_view st' !! cur = Some (p, false) /\
              stdout st' = stdout st /\ executed st' = executed st.
Proof.
  intros Hv. unfold close. unfold conn_view in Hv. rewrite list_lookup_fmap in Hv.
  destruct (connections st !! cur) as [c|] eqn:Ec; [|discriminate].
  injection Hv as Hp _. eexists. split; [reflexivity|]. simpl. repeat split.
  unfold conn_view. simpl. rewrite list_lookup_fmap, list_lookup_insert_eq.
  - simpl. now rewrite Hp.
  - eapply lookup_lt_Some. eassumption.
Qed.

End TaskRows.

(** * Theorems *)

(** ** Runs on the sample databases

    The worked examples of the specification, evaluated. *)

(** One project and one task: one formatted row per listing, the task's
    Created column cut to the date. *)
Example main_on_demo_db :
  @main posix_runtime (cwd_world demo_db) =
  (Ok tt,
   {| environ := ∅;
      files := {[ db_file_name := SqliteFile demo_db ]};
      stdout :=
        [ [magnifier] ++ lit " TaskMaster Database Debugger";
          repeat_char 61%N 40;
          lit "Examining database: taskmaster.db";
          repeat_char 61%N 60;
          [newline; clipboard] ++ lit " DATABASE SCHEMA:";
          [newline] ++ lit "  " ++ [file_folder] ++ lit " Table: Projects";
          lit "    - Id (INTEGER)";
          lit "    - Name (TEXT)";
          lit "    - TaskCount (INTEGER)";
          lit "    - NextNumber (INTEGER)";
          lit "    - LastUpdated (TEXT)";
          [newline] ++ lit "  " ++ [file_folder] ++ lit " Table: TaskSpecs";
          lit "    - Id (INTEGER)";
          lit "    - ProjectId (INTEGER)";
          lit "    - Number (INTEGER)";
          lit "    - Title (TEXT)";
          lit "    - Type (TEXT)";
          lit "    - Status (TEXT)";
          lit "    - Created (TEXT)";
          [newline; bar_chart] ++ lit " PROJECTS:";
          lit "  ID | Name                 | TaskCount | NextNumber | LastUpdated";
          lit "  ---|----------------------|-----------|------------|-------------";
          lit "   1 | Demo                 |         3 |          4 | 2024-01-01 10:00:00";
          [newline; memo] ++ lit " TASK SPECS:";
          lit "  ID | ProjID | Num | Title                | Type    | Status | Created";
          lit "  ---|--------|-----|----------------------|---------|--------|----------";
          lit "   1 |      1 |   1 | Fix bug              | bug     | open   | 2024-01-01";
          [newline; check_mark] ++ lit " Database examination complete!";
          [newline] ++ lit "If you see issues:";
          lit "1. No projects: Create a project in TaskMaster first";
          lit "2. Missing NextNumber column: Database migration may have failed";
          lit "3. No task specs: Try saving a spec and check again" ];
      connections := [ {| conn_path := db_file_name; conn_open := false; conn_rows := [] |} ];
      executed :=
        [ SelectTableNames; PragmaTableInfo (lit "Projects"); PragmaTableInfo (lit "TaskSpecs");
          projects_query; tasks_query ] |}).
Proof. vm_compute. reflexivity. Qed.

(** A database without tables: no table entries, and both listings
    report that their table is missing. *)
Example main_on_empty_db :
  stdout (snd (@main posix_runtime (cwd_world []))) =
  [ [magnifier] ++ lit " TaskMaster Database Debugger";
    repeat_char 61%N 40;
    lit "Examining database: taskmaster.db";
    repeat_char 61%N 60;
    [newline; clipboard] ++ lit " DATABASE SCHEMA:";
    [newline; bar_chart] ++ lit " PROJECTS:";
    lit "  Error reading projects: no such table: Projects";
    [newline; memo] ++ lit " TASK SPECS:";
    lit "  Error reading tasks: no such table: TaskSpecs";
    [newline; check_mark] ++ lit " Database examination complete!";
    [newline] ++ lit "If you see issues:";
    lit "1. No projects: Create a project in TaskMaster first";
    lit "2. Missing NextNumber column: Database migration may have failed";
    lit "3. No task specs: Try saving a spec and check again" ].
Proof. vm_compute. reflexivity. Qed.

(** A Projects table without rows: the listing says so and the
    TaskSpecs section follows. *)
Example main_on_empty_tables :
  drop 19 (stdout (snd (@main posix_runtime (cwd_world (sample_db [] []))))) =
  [ [newline; bar_chart] ++ lit " PROJECTS:";
    lit "  No projects found.";
    [newline; memo] ++ lit " TASK SPECS:";
    lit "  No task specs found.";
    [newline; check_mark] ++ lit " Database examination complete!";
    [newline] ++ lit "If you see issues:";
    lit "1. No projects: Create a project in TaskMaster first";
    lit "2. Missing NextNumber column: Database migration may have failed";
    lit "3. No task specs: Try saving a spec and check again" ].
Proof. vm_compute. reflexivity. Qed.

(** A table whose name is not a plain identifier stops the schema
    section: the statement is outside the [try] blocks. *)
Example schema_section_is_unguarded :
  fst (@examine_database posix_runtime db_file_name
         (cwd_world [ {| rel_type := Table; rel_name := lit "my table";
                         rel_columns := []; rel_rows := [] |} ]))
  = Raise (OperationalError (lit "near " ++ [34%N] ++ lit "my table" ++ [34%N]
                               ++ lit ": syntax error")).
Proof. vm_compute. reflexivity. Qed.

(** C1, as amended.  For every path and every state, when
    [examine_database] ends, the connections are those there were
    before, untouched, and the one it opened on the path; that one is
    closed if the function returned (also when a section caught its
    [sqlite3.OperationalError]) and still open if it ended with an
    exception. *)
Theorem examine_database_closes_iff_returns {rt : Runtime} p st r st' :
  examine_database p st = (r, st') ->
  conn_view st' = conn_view st ++ [(p, left_open r)].
Proof.
  intros E.
  destruct (examine_database_effect p st) as (r0 & s0 & _ & _ & E0 & _ & _ & _ & _ & _ & V).
  rewrite E in E0. now injection E0 as <- <-.
Qed.

(** On the demo database the function returns, and its connection is
    closed. *)
Lemma examine_database_closes_iff_returns_demo :
  fst (@examine_database posix_runtime db_file_name (cwd_world demo_db)) = Ok tt /\
  conn_view (snd (@examine_database posix_runtime db_file_name (cwd_world demo_db)))
  = conn_view (cwd_world demo_db) ++ [(db_file_name, false)].
Proof.
  split; [vm_compute; reflexivity|].
  apply (@examine_database_closes_iff_returns posix_runtime db_file_name
           (cwd_world demo_db) (Ok tt)).
  vm_compute. reflexivity.
Defined.

(** C1 as stated fails: with a TaskSpecs row whose Created cell is
    NULL, [examine_database] ends with a [TypeError] and its connection
    is still open. *)
Lemma examine_database_exception_leaves_connection_open :
  fst (@examine_database posix_runtime db_file_name
         (cwd_world (sample_db [demo_project] [demo_task; undated_task])))
  = Raise (TypeError (lit "'NoneType' object is not subscriptable")) /\
  conn_view (snd (@examine_database posix_runtime db_file_name
                    (cwd_world (sample_db [demo_project] [demo_task; undated_task]))))
  = [(db_file_name, true)].
Proof. split; vm_compute; reflexivity. Qed.

(** C2, as amended.  In every printed row of the Projects and of the
    TaskSpecs listing, a string in the Name column, and in the Title,
    Type and Status columns, is rendered left-justified in the width of
    its column (20; 20, 7 and 6): a string shorter than the width is
    followed by spaces up to the width, and a string of the width or
    longer is printed whole, not cut. *)
Theorem string_columns_are_padded_never_cut {rt : Runtime} :
  (forall project line,
     project_line project = Ok line ->
     exists f0 f1 f2 f3 f4,
       line = lit "  " ++ f0 ++ lit " | " ++ f1 ++ lit " | " ++ f2 ++ lit " | " ++ f3
                ++ lit " | " ++ f4 /\
       forall s, project !! 1%nat = Some (Text s) -> f1 = ljust 20 s) /\
  (forall task line,
     task_line task = Ok line ->
     exists f0 f1 f2 f3 f4 f5 f6,
       line = lit "  " ++ f0 ++ lit " | " ++ f1 ++ lit " | " ++ f2 ++ lit " | " ++ f3
                ++ lit " | " ++ f4 ++ lit " | " ++ f5 ++ lit " | " ++ f6 /\
       (forall s, task !! 3%nat = Some (Text s) -> f3 = ljust 20 s) /\
       (forall s, task !! 4%nat = Some (Text s) -> f4 = ljust 7 s) /\
       (forall s, task !! 5%nat = Some (Text s) -> f5 = ljust 6 s)) /\
  (forall (w : nat) (s : str),
     ((length s <= w)%nat -> length (ljust w s) = w /\ take (length s) (ljust w s) = s) /\
     ((w <= length s)%nat -> ljust w s = s)).
Proof.
  split; [|split].
  - intros project line H.
    destruct (project_line_fields _ _ H)
      as (p0 & p1 & p2 & p3 & p4 & f0 & f1 & f2 & f3 & _ & H1 & _ & _ & _ & _ & F1 & _ & _ & ->).
    exists f0, f1, f2, f3, (format_plain p4). split; [reflexivity|].
    intros s Hs. rewrite Hs in H1. injection H1 as <-. simpl in F1. congruence.
  - intros task line H.
    destruct (task_line_fields _ _ H)
      as (t0 & t1 & t2 & t3 & t4 & t5 & t6 & f0 & f1 & f2 & f3 & f4 & f5 & c
          & _ & _ & _ & H3 & H4 & H5 & _ & _ & _ & _ & F3 & F4 & F5 & _ & ->).
    exists f0, f1, f2, f3, f4, f5, (format_plain c). split; [reflexivity|].
    repeat split; intros s Hs.
    + rewrite Hs in H3. injection H3 as <-. simpl in F3. congruence.
    + rewrite Hs in H4. injection H4 as <-. simpl in F4. congruence.
    + rewrite Hs in H5. injection H5 as <-. simpl in F5. congruence.
  - intros w s. split; [apply ljust_short|apply ljust_long].
Qed.

(** The row of the demo task: its Title, Type and Status are padded
    to 20, 7 and 6 characters. *)
Lemma string_columns_are_padded_never_cut_demo :
  exists f0 f1 f2 f3 f4 f5 f6,
    lit "   1 |      1 |   1 | Fix bug              | bug     | open   | 2024-01-01"
    = lit "  " ++ f0 ++ lit " | " ++ f1 ++ lit " | " ++ f2 ++ lit " | " ++ f3
        ++ lit " | " ++ f4 ++ lit " | " ++ f5 ++ lit " | " ++ f6 /\
    (forall s, demo_task !! 3%nat = Some (Text s) -> f3 = ljust 20 s) /\
    (forall s, demo_task !! 4%nat = Some (Text s) -> f4 = ljust 7 s) /\
    (forall s, demo_task !! 5%nat = Some (Text s) -> f5 = ljust 6 s).
Proof.
  apply (proj1 (proj2 (@string_columns_are_padded_never_cut posix_runtime)) demo_task).
  vm_compute. reflexivity.
Defined.

(** C2 as stated fails: a project name of 30 characters is printed
    whole in the column of width 20. *)
Lemma long_project_name_is_not_truncated :
  @project_line posix_runtime
    [Integer 7; Text (lit "A project name of thirty chars"); Integer 3; Integer 4;
     Text (lit "2024-01-01 10:00:00")]
  = Ok (lit "   7 | A project name of thirty chars |         3 |          4 | 2024-01-01 10:00:00")
  /\ length (lit "A project name of thirty chars") = 30%nat
  /\ @format_width posix_runtime 20 (Text (lit "A project name of thirty chars"))
     <> Ok (take 20 (lit "A project name of thirty chars")).
Proof. split; [|split]; vm_compute; [reflexivity|reflexivity|discriminate]. Qed.

(** C8, as amended.  In every printed TaskSpecs row the last column is
    made from the Created cell: for a string, its first 10 characters
    (all of it when it has fewer); for a BLOB, the bytes literal of its
    first 10 bytes.  No other Created cell gets its row printed. *)
Theorem created_column_is_first_ten_characters {rt : Runtime} task line :
  task_line task = Ok line ->
  exists f0 f1 f2 f3 f4 f5 created,
    line = lit "  " ++ f0 ++ lit " | " ++ f1 ++ lit " | " ++ f2 ++ lit " | " ++ f3
             ++ lit " | " ++ f4 ++ lit " | " ++ f5 ++ lit " | " ++ created /\
    ((exists s, task !! 6%nat = Some (Text s) /\ created = take 10 s) \/
     (exists b, task !! 6%nat = Some (Blob b) /\ created = bytes_repr (take 10 b))).
Proof.
  intros H.
  destruct (task_line_fields _ _ H)
    as (t0 & t1 & t2 & t3 & t4 & t5 & t6 & f0 & f1 & f2 & f3 & f4 & f5 & c
        & _ & _ & _ & _ & _ & _ & H6 & _ & _ & _ & _ & _ & _ & S & ->).
  exists f0, f1, f2, f3, f4, f5, (format_plain c). split; [reflexivity|].
  destruct t6 as [| | |s|b]; try discriminate; injection S as <-; simpl; eauto.
Qed.

(** The row of the demo task ends with the date of its timestamp. *)
Lemma created_column_is_first_ten_characters_demo :
  exists f0 f1 f2 f3 f4 f5 created,
    lit "   1 |      1 |   1 | Fix bug              | bug     | open   | 2024-01-01"
    = lit "  " ++ f0 ++ lit " | " ++ f1 ++ lit " | " ++ f2 ++ lit " | " ++ f3
        ++ lit " | " ++ f4 ++ lit " | " ++ f5 ++ lit " | " ++ created /\
    ((exists s, demo_task !! 6%nat = Some (Text s) /\ created = take 10 s) \/
     (exists b, demo_task !! 6%nat = Some (Blob b) /\ created = bytes_repr (take 10 b))).
Proof.
  apply (@created_column_is_first_ten_characters posix_runtime demo_task).
  vm_compute. reflexivity.
Defined.

(** C8 as stated fails: a row whose Created cell is a BLOB is printed,
    and its last column is not the first 10 characters of the value but
    the 13 characters of a bytes literal. *)
Lemma blob_created_prints_as_bytes_literal :
  @task_line posix_runtime blob_dated_task
  = Ok (lit "   3 |      1 |   3 | Fix bug              | bug     | open   | b'2024-01-01'")
  /\ lit "b'2024-01-01'" <> take 10 (chars (cell blob_dated_task 6)).
Proof. split; vm_compute; [reflexivity|discriminate]. Qed.








(** C6.  With the cursor on a database, a Projects or TaskSpecs
    statement that fails with [sqlite3.OperationalError] (no such table,
    no such column) is caught in its own section: the section prints
    its title and the line Error reading projects (or tasks), a colon
    and the message, and returns.  What follows runs: after the Projects
    section the TaskSpecs section prints its title and sends its
    statement, and after the TaskSpecs section the connection is closed
    and nothing is raised. *)
Theorem operational_error_is_caught_in_its_section {rt : Runtime} cur p d st msg :
  ready cur p d st ->
  (exec projects_query d = Raise (OperationalError msg) ->
   effect (projects_section cur) st (Ok tt)
     [ [newline; bar_chart] ++ lit " PROJECTS:"; lit "  Error reading projects: " ++ msg ]
     [projects_query] /\
   exists r out,
     effect (projects_section cur ;;; tasks_section cur) st r
       ([ [newline; bar_chart] ++ lit " PROJECTS:"; lit "  Error reading projects: " ++ msg;
          [newline; memo] ++ lit " TASK SPECS:" ] ++ out)
       [projects_query; tasks_query]) /\
  (exec tasks_query d = Raise (OperationalError msg) ->
   effect (tasks_section cur) st (Ok tt)
     [ [newline; memo] ++ lit " TASK SPECS:"; lit "  Error reading tasks: " ++ msg ]
     [tasks_query] /\
   exists st', (tasks_section cur ;;; close cur) st = (Ok tt, st') /\
               conn_view st' !! cur = Some (p, false)).
Proof.
  intros Hr. split; intros Ex.
  - assert (Hp : effect (projects_section cur) st (Ok tt)
             [ [newline; bar_chart] ++ lit " PROJECTS:"; lit "  Error reading projects: " ++ msg ]
             [projects_query]).
    { rewrite projects_section_listing.
      pose proof (listing_effect cur ([newline; bar_chart] ++ lit " PROJECTS:") projects_query
        (lit "  ID | Name                 | TaskCount | NextNumber | LastUpdated")
        (lit "  ---|----------------------|-----------|------------|-------------")
        project_line (lit "  No projects found.") (lit "  Error reading projects: ")
        st p d Hr eq_refl project_line_no_operational) as H.
      rewrite Ex in H. exact H. }
    split; [exact Hp|].
    eexists _, _.
    apply (effect_bind _ _ _ _ _ _ [projects_query] _ [tasks_query] Hp).
    intros st1 Hw. rewrite tasks_section_listing.
    apply (listing_effect _ _ _ _ _ _ _ _ st1 p d);
      [now apply (ready_same_world _ _ _ _ _ Hw)|reflexivity|].
    apply task_line_no_operational.
  - assert (Ht : effect (tasks_section cur) st (Ok tt)
             [ [newline; memo] ++ lit " TASK SPECS:"; lit "  Error reading tasks: " ++ msg ]
             [tasks_query]).
    { rewrite tasks_section_listing.
      pose proof (listing_effect cur ([newline; memo] ++ lit " TASK SPECS:") tasks_query
        (lit "  ID | ProjID | Num | Title                | Type    | Status | Created")
        (lit "  ---|--------|-----|----------------------|---------|--------|----------")
        task_line (lit "  No task specs found.") (lit "  Error reading tasks: ")
        st p d Hr eq_refl task_line_no_operational) as H.
      rewrite Ex in H. exact H. }
    split; [exact Ht|].
    destruct Ht as (st1 & E & Hw & _).
    destruct (close_open st1 cur p) as (st2 & Ec & Hv & _).
    { apply (ready_same_world _ _ _ _ _ Hw) in Hr. apply Hr. }
    exists st2. unfold bind. rewrite E. auto.
Qed.

(** On the empty database the Projects statement fails, the section
    reports it, and the TaskSpecs section runs. *)
Lemma operational_error_is_caught_in_its_section_demo :
  effect (@projects_section posix_runtime 0) connected_to_empty (Ok tt)
    [ [newline; bar_chart] ++ lit " PROJECTS:";
      lit "  Error reading projects: " ++ lit "no such table: Projects" ]
    [projects_query] /\
  exists r out,
    effect (@projects_section posix_runtime 0 ;;; @tasks_section posix_runtime 0)
      connected_to_empty r
      ([ [newline; bar_chart] ++ lit " PROJECTS:";
         lit "  Error reading projects: " ++ lit "no such table: Projects";
         [newline; memo] ++ lit " TASK SPECS:" ] ++ out)
      [projects_query; tasks_query].
Proof.
  apply (proj1 (@operational_error_is_caught_in_its_section posix_runtime 0 db_file_name []
                  connected_to_empty (lit "no such table: Projects")
                  (conj eq_refl eq_refl))).
  reflexivity.
Defined.



(** C10, as amended.  Let the database be in the file, let the run
    reach the TaskSpecs section, and let the TaskSpecs statement return
    a row whose Created cell is NULL, an integer or a real ([None], an
    [int] or a [float]; a BLOB, read back as [bytes], can be sliced).
    Then printing the rows raises a [TypeError], at the slicing of that
    cell or before it at a cell that cannot be formatted; the section
    does not catch it, and [examine_database] ends with it, its
    connection still open. *)
Theorem unsubscriptable_created_ends_examine_database {rt : Runtime}
    p d st cur st1 rows d' :
  files st !! p = Some (SqliteFile d) ->
  examine_prologue p st = (Ok cur, st1) ->
  exec tasks_query d = Ok (rows, d') ->
  Exists (fun task => unsubscriptable (cell task 6)) rows ->
  exists msg st',
    examine_database p st = (Raise (TypeError msg), st') /\
    conn_view st' = conn_view st ++ [(p, true)].
Proof.
  intros Hf Ep Ex Hbad.
  pose proof (examine_prologue_ready _ _ _ _ _ Hf Ep) as Hr.
  destruct (examine_prologue_effect _ _ _ _ Ep) as (_ & _ & Hv & _).
  destruct (render_unsubscriptable rows (tasks_query_rows_length _ _ _ Ex) Hbad) as [msg Hmsg].
  pose proof (listing_effect cur ([newline; memo] ++ lit " TASK SPECS:") tasks_query
    (lit "  ID | ProjID | Num | Title                | Type    | Status | Created")
    (lit "  ---|--------|-----|----------------------|---------|--------|----------")
    task_line (lit "  No task specs found.") (lit "  Error reading tasks: ")
    st1 p d Hr eq_refl task_line_no_operational) as H.
  rewrite <- tasks_section_listing, Ex in H.
  destruct rows as [|r rows]; [inversion Hbad|].
  cbn [listing_report fst] in H. rewrite Hmsg in H.
  destruct H as (st2 & E2 & [_ _ Hc] & _).
  exists msg, st2. split.
  - rewrite examine_database_split. unfold bind at 1. rewrite Ep.
    unfold bind. now rewrite E2.
  - now rewrite Hc.
Qed.

(** A single task without a date: the function ends with a
    [TypeError] and the connection is open. *)
Lemma unsubscriptable_created_ends_examine_database_demo :
  exists msg st',
    @examine_database posix_runtime db_file_name (cwd_world (sample_db [] [undated_task]))
    = (Raise (TypeError msg), st') /\
    conn_view st' = conn_view (cwd_world (sample_db [] [undated_task]))
                    ++ [(db_file_name, true)].
Proof.
  apply (@unsubscriptable_created_ends_examine_database posix_runtime db_file_name
           (sample_db [] [undated_task]) (cwd_world (sample_db [] [undated_task]))
           0%nat
           (snd (@examine_prologue posix_runtime db_file_name
                   (cwd_world (sample_db [] [undated_task]))))
           [undated_task] (sample_db [] [undated_task])).
  - reflexivity.
  - vm_compute. reflexivity.
  - vm_compute. reflexivity.
  - constructor. exact I.
Defined.

(** C10 as stated fails: a Created cell that is a BLOB is no string,
    yet it is sliced without error; the row is printed and
    [examine_database] returns with its connection closed. *)
Lemma blob_created_is_sliced_without_error :
  @slice10 (Blob (list_byte_of_string "2024-01-01T00:00:00"))
  = Ok (Blob (list_byte_of_string "2024-01-01")) /\
  fst (@examine_database posix_runtime db_file_name
         (cwd_world (sample_db [] [blob_dated_task]))) = Ok tt /\
  conn_view (snd (@examine_database posix_runtime db_file_name
                    (cwd_world (sample_db [] [blob_dated_task]))))
  = [(db_file_name, false)] /\
  last (stdout (snd (@examine_database posix_runtime db_file_name
                       (cwd_world (sample_db [] [blob_dated_task])))))
  = Some (lit "   3 |      1 |   3 | Fix bug              | bug     | open   | b'2024-01-01'").
Proof. split; [|split; [|split]]; vm_compute; reflexivity. Qed.

(** * Further properties *)

(** ** [find_database] and [main] *)

Section MainCases.
Context {rt : Runtime}.

(** [find_database] looks at the environment and the files only. *)
Lemma find_database_set_stdout out st o :
  find_database st = (Ok o, st) ->
  find_database (set_stdout out st) = (Ok o, set_stdout out st).
Proof.
  unfold find_database, bind, environ_get, path_exists, ret. simpl.
  destruct (environ st !! lit "LOCALAPPDATA") as [[|c dir]|]; simpl.
  all: repeat (match goal with
               | |- context [bool_decide (is_Some (files ?s !! ?q))] =>
                   destruct (bool_decide (is_Some (files s !! q)))
               end; simpl).
  all: now intros [= <-].
Qed.

(** [main] once a database is found. *)
Lemma main_found st c p :
  find_database st = (Ok (Some (c :: p)), st) ->
  main st =
  match examine_database (c :: p) (set_stdout (stdout st ++ banner) st) with
  | (Ok _, s) => (Ok tt, set_stdout (stdout s ++ closing_lines) s)
  | (Raise e, s) => (Raise e, s)
  end.
Proof.
  intros Hf.
  set (st2 := set_stdout ((stdout st ++ [[magnifier] ++ lit " TaskMaster Database Debugger"])
                            ++ [repeat_char 61%N 40]) st).
  assert (E2 : set_stdout (stdout st ++ banner) st = st2).
  { unfold st2, banner. now rewrite <- app_assoc. }
  rewrite E2.
  transitivity
    ((db_path <- find_database ;;
      match db_path with
      | Some path =>
          if truthy db_path then
            examine_database path ;;;
            print ([newline; check_mark] ++ lit " Database examination complete!") ;;;
            print ([newline] ++ lit "If you see issues:") ;;;
            print (lit "1. No projects: Create a project in TaskMaster first") ;;;
            print (lit "2. Missing NextNumber column: Database migration may have failed") ;;;
            print (lit "3. No task specs: Try saving a spec and check again")
          else not_found_report
      | None => not_found_report
      end) st2); [reflexivity|].
  assert (Hf2 : find_database st2 = (Ok (Some (c :: p)), st2))
    by apply (find_database_set_stdout _ _ _ Hf).
  unfold bind at 1. rewrite Hf2.
  change (truthy (Some (c :: p))) with true. cbv beta iota.
  unfold bind at 1. destruct (examine_database (c :: p) st2) as [[[]|e] s]; [|reflexivity].
  unfold bind, print, closing_lines. simpl. rewrite <- !app_assoc. reflexivity.
Qed.

End MainCases.


(** X2.  When [find_database] returns a (non-empty) name, [main] prints
    its banner and runs [examine_database] on that name; if that
    returns, the five closing lines follow and [main] returns; if it
    raises, [main] ends with the same exception, the closing lines
    unprinted. *)
Theorem main_examines_the_database_found {rt : Runtime} st c p :
  find_database st = (Ok (Some (c :: p)), st) ->
  main st =
  match examine_database (c :: p) (set_stdout (stdout st ++ banner) st) with
  | (Ok _, s) =>
      (Ok tt,
       set_stdout
         (stdout s ++
          [ [newline; check_mark] ++ lit " Database examination complete!";
            [newline] ++ lit "If you see issues:";
            lit "1. No projects: Create a project in TaskMaster first";
            lit "2. Missing NextNumber column: Database migration may have failed";
            lit "3. No task specs: Try saving a spec and check again" ]) s)
  | (Raise e, s) => (Raise e, s)
  end.
Proof. apply main_found. Qed.

(** On the database with an undated task the exception of
    [examine_database] is the one [main] ends with. *)
Lemma main_examines_the_database_found_demo :
  @main posix_runtime (cwd_world (sample_db [] [undated_task])) =
  match @examine_database posix_runtime db_file_name
          (set_stdout (stdout (cwd_world (sample_db [] [undated_task])) ++ banner)
             (cwd_world (sample_db [] [undated_task]))) with
  | (Ok _, s) =>
      (Ok tt,
       set_stdout
         (stdout s ++
          [ [newline; check_mark] ++ lit " Database examination complete!";
            [newline] ++ lit "If you see issues:";
            lit "1. No projects: Create a project in TaskMaster first";
            lit "2. Missing NextNumber column: Database migration may have failed";
            lit "3. No task specs: Try saving a spec and check again" ]) s)
  | (Raise e, s) => (Raise e, s)
  end.
Proof.
  apply (@main_examines_the_database_found posix_runtime
           (cwd_world (sample_db [] [undated_task])) 116%N (lit "askmaster.db")).
  vm_compute. reflexivity.
Defined.

Section MainNotFound.
Context {rt : Runtime}.

(** [main] when nothing is found (or the name found is empty). *)
Lemma main_not_found st o :
  find_database st = (Ok o, st) -> truthy o = false ->
  main st = (Ok tt, set_stdout (stdout st ++ banner ++ not_found_lines st) st).
Proof.
  intros Hf Ht.
  set (st2 := set_stdout ((stdout st ++ [[magnifier] ++ lit " TaskMaster Database Debugger"])
                            ++ [repeat_char 61%N 40]) st).
  assert (Hf2 : find_database st2 = (Ok o, st2))
    by apply (find_database_set_stdout _ _ _ Hf).
  transitivity (not_found_report st2).
  - transitivity
      ((db_path <- find_database ;;
        match db_path with
        | Some path =>
            if truthy db_path then
              examine_database path ;;;
              print ([newline; check_mark] ++ lit " Database examination complete!") ;;;
              print ([newline] ++ lit "If you see issues:") ;;;
              print (lit "1. No projects: Create a project in TaskMaster first") ;;;
              print (lit "2. Missing NextNumber column: Database migration may have failed") ;;;
              print (lit "3. No task specs: Try saving a spec and check again")
            else not_found_report
        | None => not_found_report
        end) st2); [reflexivity|].
    unfold bind at 1. rewrite Hf2. destruct o as [path|]; [|reflexivity].
    now rewrite Ht.
  - rewrite not_found_report_run. unfold st2, banner, not_found_lines. simpl.
    now rewrite <- !app_assoc.
Qed.

End MainNotFound.



(** ** The listings *)

Section Listings.
Context {rt : Runtime}.

(** What a section prints, from the result of its statement. *)
Lemma projects_section_effect cur p d st :
  ready cur p d st ->
  effect (projects_section cur) st
    (fst (listing_report
            (lit "  ID | Name                 | TaskCount | NextNumber | LastUpdated")
            (lit "  ---|----------------------|-----------|------------|-------------")
            project_line (lit "  No projects found.") (lit "  Error reading projects: ")
            (exec projects_query d)))
    (([newline; bar_chart] ++ lit " PROJECTS:")
     :: snd (listing_report
            (lit "  ID | Name                 | TaskCount | NextNumber | LastUpdated")
            (lit "  ---|----------------------|-----------|------------|-------------")
            project_line (lit "  No projects found.") (lit "  Error reading projects: ")
            (exec projects_query d)))
    [projects_query].
Proof.
  intros Hr. rewrite projects_section_listing.
  apply (listing_effect cur _ projects_query _ _ _ _ _ st p d Hr eq_refl
           project_line_no_operational).
Qed.

Lemma tasks_section_effect cur p d st :
  ready cur p d st ->
  effect (tasks_section cur) st
    (fst (listing_report
            (lit "  ID | ProjID | Num | Title                | Type    | Status | Created")
            (lit "  ---|--------|-----|----------------------|---------|--------|----------")
            task_line (lit "  No task specs found.") (lit "  Error reading tasks: ")
            (exec tasks_query d)))
    (([newline; memo] ++ lit " TASK SPECS:")
     :: snd (listing_report
            (lit "  ID | ProjID | Num | Title                | Type    | Status | Created")
            (lit "  ---|--------|-----|----------------------|---------|--------|----------")
            task_line (lit "  No task specs found.") (lit "  Error reading tasks: ")
            (exec tasks_query d)))
    [tasks_query].
Proof.
  intros Hr. rewrite tasks_section_listing.
  apply (listing_effect cur _ tasks_query _ _ _ _ _ st p d Hr eq_refl
           task_line_no_operational).
Qed.

(** The rows of the Projects statement: the stored rows, in the stored
    order, cut to the five columns. *)
Lemma projects_query_rows d rows d' :
  exec projects_query d = Ok (rows, d') ->
  exists t idxs,
    find_relation (lit "Projects") d = Some t /\
    resolve_columns [lit "Id"; lit "Name"; lit "TaskCount"; lit "NextNumber"; lit "LastUpdated"]
                    (rel_columns t) = Ok idxs /\
    rows = map (project idxs) (rel_rows t).
Proof.
  intros H. apply exec_select in H as (t & idxs & ks & Ht & Hi & Hk & ->).
  apply resolve_columns_nil in Hk as ->. rewrite order_rows_nil. eauto.
Qed.

End Listings.

(** X4.  A Projects (TaskSpecs) statement that succeeds without rows
    makes its section print its title and the line No projects found.
    (No task specs found.), without header, and return. *)
Theorem empty_listing_is_reported {rt : Runtime} cur p d st d' :
  ready cur p d st ->
  (exec projects_query d = Ok ([], d') ->
   effect (projects_section cur) st (Ok tt)
     [ [newline; bar_chart] ++ lit " PROJECTS:"; lit "  No projects found." ]
     [projects_query]) /\
  (exec tasks_query d = Ok ([], d') ->
   effect (tasks_section cur) st (Ok tt)
     [ [newline; memo] ++ lit " TASK SPECS:"; lit "  No task specs found." ]
     [tasks_query]).
Proof.
  intros Hr. split; intros Ex.
  - pose proof (projects_section_effect cur p d st Hr) as H. now rewrite Ex in H.
  - pose proof (tasks_section_effect cur p d st Hr) as H. now rewrite Ex in H.
Qed.

Lemma empty_listing_is_reported_demo :
  effect (@projects_section posix_runtime 0) connected_to_empty_tables (Ok tt)
    [ [newline; bar_chart] ++ lit " PROJECTS:"; lit "  No projects found." ]
    [projects_query].
Proof.
  apply (proj1 (@empty_listing_is_reported posix_runtime 0 db_file_name (sample_db [] [])
                  connected_to_empty_tables (sample_db [] []) (conj eq_refl eq_refl))).
  reflexivity.
Defined.

(** X5.  When the Projects statement returns rows, they are the stored
    rows of the table in the order they are stored in, cut to the five
    columns; the section prints its title, the header and the rule and
    then one line per row in that order, up to the first row that
    cannot be formatted (all of them when the section returns). *)
Theorem project_rows_printed_in_stored_order {rt : Runtime} cur p d st rows d' :
  ready cur p d st ->
  exec projects_query d = Ok (rows, d') ->
  rows <> [] ->
  exists t idxs printed lines r,
    find_relation (lit "Projects") d = Some t /\
    resolve_columns [lit "Id"; lit "Name"; lit "TaskCount"; lit "NextNumber"; lit "LastUpdated"]
                    (rel_columns t) = Ok idxs /\
    rows = map (project idxs) (rel_rows t) /\
    effect (projects_section cur) st r
      ([ [newline; bar_chart] ++ lit " PROJECTS:";
         lit "  ID | Name                 | TaskCount | NextNumber | LastUpdated";
         lit "  ---|----------------------|-----------|------------|-------------" ]
       ++ lines)
      [projects_query] /\
    Forall2 (fun project line => project_line project = Ok line) printed lines /\
    printed `prefix_of` rows /\
    (r = Ok tt -> printed = rows).
Proof.
  intros Hr Ex Hne.
  destruct (projects_query_rows _ _ _ Ex) as (t & idxs & Ht & Hi & Hrows).
  destruct (render_prefix project_line rows) as (printed & Hp & Hl & Hall).
  exists t, idxs, printed, (fst (render project_line rows)), (snd (render project_line rows)).
  split; [exact Ht|]. split; [exact Hi|]. split; [exact Hrows|].
  split; [|split; [exact Hl|split; [exact Hp|exact Hall]]].
  pose proof (projects_section_effect cur p d st Hr) as H.
  rewrite Ex in H. destruct rows; [contradiction|]. exact H.
Qed.

Lemma project_rows_printed_in_stored_order_demo :
  exists t idxs printed lines r,
    find_relation (lit "Projects") two_projects_db = Some t /\
    resolve_columns [lit "Id"; lit "Name"; lit "TaskCount"; lit "NextNumber"; lit "LastUpdated"]
                    (rel_columns t) = Ok idxs /\
    [ [Integer 2; Text (lit "Second"); Integer 0; Integer 1; Text (lit "2024-02-01 09:00:00")];
      [Integer 1; Text (lit "First"); Integer 5; Integer 6; Null] ]
    = map (project idxs) (rel_rows t) /\
    effect (@projects_section posix_runtime 0) connected_to_two_projects r
      ([ [newline; bar_chart] ++ lit " PROJECTS:";
         lit "  ID | Name                 | TaskCount | NextNumber | LastUpdated";
         lit "  ---|----------------------|-----------|------------|-------------" ]
       ++ lines)
      [projects_query] /\
    Forall2 (fun project line => @project_line posix_runtime project = Ok line) printed lines /\
    printed `prefix_of`
      [ [Integer 2; Text (lit "Second"); Integer 0; Integer 1; Text (lit "2024-02-01 09:00:00")];
        [Integer 1; Text (lit "First"); Integer 5; Integer 6; Null] ] /\
    (r = Ok tt -> printed =
      [ [Integer 2; Text (lit "Second"); Integer 0; Integer 1; Text (lit "2024-02-01 09:00:00")];
        [Integer 1; Text (lit "First"); Integer 5; Integer 6; Null] ]).
Proof.
  apply (@project_rows_printed_in_stored_order posix_runtime 0 db_file_name two_projects_db
           connected_to_two_projects _ two_projects_db).
  - split; reflexivity.
  - vm_compute. reflexivity.
  - discriminate.
Defined.

(** X6.  The TaskSpecs listing loses no row and invents none: the rows
    its statement returns are the stored rows of the table, cut to the
    seven columns, in some order; and when the section returns it has
    printed one line for each of them. *)
Theorem task_listing_loses_no_row {rt : Runtime} cur p d st rows d' :
  ready cur p d st ->
  exec tasks_query d = Ok (rows, d') ->
  rows <> [] ->
  exists t idxs lines r,
    find_relation (lit "TaskSpecs") d = Some t /\
    resolve_columns [lit "Id"; lit "ProjectId"; lit "Number"; lit "Title"; lit "Type";
                     lit "Status"; lit "Created"] (rel_columns t) = Ok idxs /\
    Permutation rows (map (project idxs) (rel_rows t)) /\
    effect (tasks_section cur) st r
      ([ [newline; memo] ++ lit " TASK SPECS:";
         lit "  ID | ProjID | Num | Title                | Type    | Status | Created";
         lit "  ---|--------|-----|----------------------|---------|--------|----------" ]
       ++ lines)
      [tasks_query] /\
    (r = Ok tt -> Forall2 (fun task line => task_line task = Ok line) rows lines).
Proof.
  intros Hr Ex Hne.
  destruct (exec_select _ _ _ _ _ _ Ex) as (t & idxs & ks & Ht & Hi & _ & Hrows).
  destruct (render_prefix task_line rows) as (printed & _ & Hl & Hall).
  exists t, idxs, (fst (render task_line rows)), (snd (render task_line rows)).
  split; [exact Ht|]. split; [exact Hi|]. split; [|split].
  - rewrite Hrows. apply Permutation_map, order_rows_perm.
  - pose proof (tasks_section_effect cur p d st Hr) as H.
    rewrite Ex in H. destruct rows; [contradiction|]. exact H.
  - intros Hok. specialize (Hall Hok). subst printed. exact Hl.
Qed.

Lemma task_listing_loses_no_row_demo :
  exists t idxs lines r,
    find_relation (lit "TaskSpecs") shuffled_db = Some t /\
    resolve_columns [lit "Id"; lit "ProjectId"; lit "Number"; lit "Title"; lit "Type";
                     lit "Status"; lit "Created"] (rel_columns t) = Ok idxs /\
    Permutation
      [ [Integer 3; Integer 1; Integer 1; Text (lit "a"); Text (lit "bug"); Text (lit "open");
         Text (lit "2024-01-01")];
        [Integer 2; Integer 1; Integer 2; Text (lit "b"); Text (lit "bug"); Text (lit "open");
         Text (lit "2024-02-01")];
        [Integer 1; Integer 2; Integer 1; Text (lit "c"); Text (lit "bug"); Text (lit "open");
         Text (lit "2024-03-01")] ]
      (map (project idxs) (rel_rows t)) /\
    effect (@tasks_section posix_runtime 0) connected_to_shuffled r
      ([ [newline; memo] ++ lit " TASK SPECS:";
         lit "  ID | ProjID | Num | Title                | Type    | Status | Created";
         lit "  ---|--------|-----|----------------------|---------|--------|----------" ]
       ++ lines)
      [tasks_query] /\
    (r = Ok tt ->
     Forall2 (fun task line => @task_line posix_runtime task = Ok line)
       [ [Integer 3; Integer 1; Integer 1; Text (lit "a"); Text (lit "bug"); Text (lit "open");
          Text (lit "2024-01-01")];
         [Integer 2; Integer 1; Integer 2; Text (lit "b"); Text (lit "bug"); Text (lit "open");
          Text (lit "2024-02-01")];
         [Integer 1; Integer 2; Integer 1; Text (lit "c"); Text (lit "bug"); Text (lit "open");
          Text (lit "2024-03-01")] ]
       lines).
Proof.
  apply (@task_listing_loses_no_row posix_runtime 0 db_file_name shuffled_db
           connected_to_shuffled _ shuffled_db).
  - split; reflexivity.
  - vm_compute. reflexivity.
  - discriminate.
Defined.

(** ** Which rows can be printed *)

Section Printable.
Context {rt : Runtime}.

Lemma format_width_formattable w v :
  (exists s, format_width w v = Ok s) <-> formattable v.
Proof. destruct v; simpl; split; eauto; try contradiction; intros [? ?]; discriminate. Qed.

Lemma slice10_sliceable v : (exists v', slice10 v = Ok v') <-> sliceable v.
Proof. destruct v; simpl; split; eauto; try contradiction; intros [? ?]; discriminate. Qed.

Lemma project_line_five project :
  length project = 5%nat ->
  (exists l, project_line project = Ok l) \/
  (exists msg, project_line project = Raise (TypeError msg)).
Proof.
  intros H. do 6 (destruct project as [|? project]; try discriminate). clear H.
  unfold project_line, index. simpl.
  repeat match goal with
         | |- context [obind (format_width ?w ?v) _] =>
             destruct (format_width_cases w v) as [[? ->]|[? ->]]; simpl; [|eauto]
         end.
  eauto.
Qed.

Lemma project_line_ok_iff project :
  length project = 5%nat ->
  (exists line, project_line project = Ok line) <-> Forall formattable (take 4 project).
Proof.
  intros H. do 6 (destruct project as [|? project]; try discriminate). clear H. simpl take.
  rewrite !Forall_cons, Forall_nil. split.
  - intros [line Hl]. apply project_line_fields in Hl
      as (p0 & p1 & p2 & p3 & p4 & f0 & f1 & f2 & f3
          & [= <-] & [= <-] & [= <-] & [= <-] & _ & F0 & F1 & F2 & F3 & _).
    repeat split; eapply format_width_formattable; eauto.
  - intros (H0 & H1 & H2 & H3 & _).
    apply (format_width_formattable 2) in H0 as [f0 F0].
    apply (format_width_formattable 20) in H1 as [f1 F1].
    apply (format_width_formattable 9) in H2 as [f2 F2].
    apply (format_width_formattable 10) in H3 as [f3 F3].
    unfold project_line, index. simpl. rewrite F0. simpl. rewrite F1. simpl.
    rewrite F2. simpl. rewrite F3. simpl. eauto.
Qed.

Lemma task_line_ok_iff task :
  length task = 7%nat ->
  (exists line, task_line task = Ok line) <->
  Forall formattable (take 6 task) /\ sliceable (cell task 6).
Proof.
  intros H. do 8 (destruct task as [|? task]; try discriminate). clear H. simpl take.
  unfold cell. simpl nth.
  rewrite !Forall_cons, Forall_nil. split.
  - intros [line Hl]. apply task_line_fields in Hl
      as (t0 & t1 & t2 & t3 & t4 & t5 & t6 & f0 & f1 & f2 & f3 & f4 & f5 & c
          & [= <-] & [= <-] & [= <-] & [= <-] & [= <-] & [= <-] & [= <-]
          & F0 & F1 & F2 & F3 & F4 & F5 & S & _).
    split; [repeat split; eapply format_width_formattable; eauto|].
    eapply slice10_sliceable; eauto.
  - intros ((H0 & H1 & H2 & H3 & H4 & H5 & _) & H6).
    apply (format_width_formattable 2) in H0 as [f0 F0].
    apply (format_width_formattable 6) in H1 as [f1 F1].
    apply (format_width_formattable 3) in H2 as [f2 F2].
    apply (format_width_formattable 20) in H3 as [f3 F3].
    apply (format_width_formattable 7) in H4 as [f4 F4].
    apply (format_width_formattable 6) in H5 as [f5 F5].
    apply slice10_sliceable in H6 as [c S].
    unfold task_line, index. simpl. rewrite F0. simpl. rewrite F1. simpl.
    rewrite F2. simpl. rewrite F3. simpl. rewrite F4. simpl. rewrite F5. simpl.
    rewrite S. simpl. eauto.
Qed.

End Printable.

(** X7.  A Projects row of five cells is printed exactly when its Id,
    Name, TaskCount and NextNumber cells are numbers or strings; the
    LastUpdated cell may be anything, [None] included.  A row that is
    not printed raises a [TypeError]. *)
Theorem project_row_is_printed_iff_formattable {rt : Runtime} project :
  length project = 5%nat ->
  ((exists line, project_line project = Ok line) <-> Forall formattable (take 4 project)) /\
  (forall e, project_line project = Raise e -> exists msg, e = TypeError msg).
Proof.
  intros H. split; [now apply project_line_ok_iff|].
  intros e He. destruct (project_line_five project H) as [[l Hl]|[msg Hm]]; [congruence|].
  exists msg. congruence.
Qed.

(** The second row of [two_projects_db], whose LastUpdated is NULL, is
    printed. *)
Lemma project_row_is_printed_iff_formattable_demo :
  (exists line,
     @project_line posix_runtime
       [Integer 1; Text (lit "First"); Integer 5; Integer 6; Null] = Ok line) <->
  Forall formattable (take 4 [Integer 1; Text (lit "First"); Integer 5; Integer 6; Null]).
Proof.
  apply (proj1 (@project_row_is_printed_iff_formattable posix_runtime
                  [Integer 1; Text (lit "First"); Integer 5; Integer 6; Null] eq_refl)).
Defined.

(** X8.  A TaskSpecs row of seven cells is printed exactly when its
    first six cells are numbers or strings and its Created cell is a
    string or a bytes object.  A row that is not printed raises a
    [TypeError]. *)
Theorem task_row_is_printed_iff_formattable {rt : Runtime} task :
  length task = 7%nat ->
  ((exists line, task_line task = Ok line) <->
   Forall formattable (take 6 task) /\ sliceable (cell task 6)) /\
  (forall e, task_line task = Raise e -> exists msg, e = TypeError msg).
Proof.
  intros H. split; [now apply task_line_ok_iff|].
  intros e He. destruct (task_line_seven task H) as [[l Hl]|[msg Hm]]; [congruence|].
  exists msg. congruence.
Qed.

Lemma task_row_is_printed_iff_formattable_demo :
  (exists line, @task_line posix_runtime blob_dated_task = Ok line) <->
  Forall formattable (take 6 blob_dated_task) /\ sliceable (cell blob_dated_task 6).
Proof.
  apply (proj1 (@task_row_is_printed_iff_formattable posix_runtime blob_dated_task eq_refl)).
Defined.

Section Justify.

Lemma rjust_short (w : nat) (s : str) :
  (length s <= w)%nat ->
  length (rjust w s) = w /\ drop (w - length s) (rjust w s) = s.
Proof.
  intros H. unfold rjust, repeat_char. split.
  - rewrite length_app, length_replicate. lia.
  - rewrite drop_app_length'; [reflexivity|]. now rewrite length_replicate.
Qed.

Lemma rjust_long (w : nat) (s : str) : (w <= length s)%nat -> rjust w s = s.
Proof.
  intros H. unfold rjust, repeat_char.
  now replace (w - length s)%nat with 0%nat by lia.
Qed.

End Justify.

(** X9.  In every printed row an integer in the Id, TaskCount or
    NextNumber column of the Projects listing (widths 2, 9, 10), or in
    the Id, ProjectId or Number column of the TaskSpecs listing (widths
    2, 6, 3), is written in decimal and right-justified: preceded by
    spaces up to the width, and written whole when it needs the width
    or more.  The LastUpdated column is the value as [str] gives it: a
    string in full, NULL as None. *)
Theorem number_columns_are_right_justified {rt : Runtime} :
  (forall project line,
     project_line project = Ok line ->
     exists f0 f1 f2 f3 f4,
       line = lit "  " ++ f0 ++ lit " | " ++ f1 ++ lit " | " ++ f2 ++ lit " | " ++ f3
                ++ lit " | " ++ f4 /\
       (forall z, project !! 0%nat = Some (Integer z) -> f0 = rjust 2 (int_str z)) /\
       (forall z, project !! 2%nat = Some (Integer z) -> f2 = rjust 9 (int_str z)) /\
       (forall z, project !! 3%nat = Some (Integer z) -> f3 = rjust 10 (int_str z)) /\
       (forall s, project !! 4%nat = Some (Text s) -> f4 = s) /\
       (project !! 4%nat = Some Null -> f4 = lit "None")) /\
  (forall task line,
     task_line task = Ok line ->
     exists f0 f1 f2 f3 f4 f5 f6,
       line = lit "  " ++ f0 ++ lit " | " ++ f1 ++ lit " | " ++ f2 ++ lit " | " ++ f3
                ++ lit " | " ++ f4 ++ lit " | " ++ f5 ++ lit " | " ++ f6 /\
       (forall z, task !! 0%nat = Some (Integer z) -> f0 = rjust 2 (int_str z)) /\
       (forall z, task !! 1%nat = Some (Integer z) -> f1 = rjust 6 (int_str z)) /\
       (forall z, task !! 2%nat = Some (Integer z) -> f2 = rjust 3 (int_str z))) /\
  (forall (w : nat) (s : str),
     ((length s <= w)%nat ->
      length (rjust w s) = w /\ drop (w - length s) (rjust w s) = s) /\
     ((w <= length s)%nat -> rjust w s = s)).
Proof.
  split; [|split].
  - intros project line H.
    destruct (project_line_fields _ _ H)
      as (p0 & p1 & p2 & p3 & p4 & f0 & f1 & f2 & f3
          & H0 & _ & H2 & H3 & H4 & F0 & _ & F2 & F3 & ->).
    exists f0, f1, f2, f3, (format_plain p4). split; [reflexivity|].
    repeat split.
    + intros z Hz. rewrite Hz in H0. injection H0 as <-. simpl in F0. congruence.
    + intros z Hz. rewrite Hz in H2. injection H2 as <-. simpl in F2. congruence.
    + intros z Hz. rewrite Hz in H3. injection H3 as <-. simpl in F3. congruence.
    + intros s Hs. rewrite Hs in H4. now injection H4 as <-.
    + intros Hn. rewrite Hn in H4. now injection H4 as <-.
  - intros task line H.
    destruct (task_line_fields _ _ H)
      as (t0 & t1 & t2 & t3 & t4 & t5 & t6 & f0 & f1 & f2 & f3 & f4 & f5 & c
          & H0 & H1 & H2 & _ & _ & _ & _ & F0 & F1 & F2 & _ & _ & _ & _ & ->).
    exists f0, f1, f2, f3, f4, f5, (format_plain c). split; [reflexivity|].
    repeat split.
    + intros z Hz. rewrite Hz in H0. injection H0 as <-. simpl in F0. congruence.
    + intros z Hz. rewrite Hz in H1. injection H1 as <-. simpl in F1. congruence.
    + intros z Hz. rewrite Hz in H2. injection H2 as <-. simpl in F2. congruence.
  - intros w s. split; [apply rjust_short|apply rjust_long].
Qed.

(** The row of the demo project: 1, 3 and 4 stand at the right of
    their columns. *)
Lemma number_columns_are_right_justified_demo :
  exists f0 f1 f2 f3 f4,
    lit "   1 | Demo                 |         3 |          4 | 2024-01-01 10:00:00"
    = lit "  " ++ f0 ++ lit " | " ++ f1 ++ lit " | " ++ f2 ++ lit " | " ++ f3
        ++ lit " | " ++ f4 /\
    (forall z, demo_project !! 0%nat = Some (Integer z) -> f0 = rjust 2 (int_str z)) /\
    (forall z, demo_project !! 2%nat = Some (Integer z) -> f2 = rjust 9 (int_str z)) /\
    (forall z, demo_project !! 3%nat = Some (Integer z) -> f3 = rjust 10 (int_str z)) /\
    (forall s, demo_project !! 4%nat = Some (Text s) -> f4 = s) /\
    (demo_project !! 4%nat = Some Null -> f4 = lit "None").
Proof.
  apply (proj1 (@number_columns_are_right_justified posix_runtime) demo_project).
  vm_compute. reflexivity.
Defined.

(** ** The schema listing *)

Lemma effect_ext {A} (m m' : M A) st r o q :
  m st = m' st -> effect m' st r o q -> effect m st r o q.
Proof. intros E (st' & H & Hrest). exists st'. now rewrite E. Qed.

Lemma effect_as {A} (m : M A) st r o q o' q' :
  effect m st r o q -> o = o' -> q = q' -> effect m st r o' q'.
Proof. now intros H <- <-. Qed.

Lemma for_each_ext {A} (xs : list A) (f g : A -> M unit) :
  (forall x st, f x st = g x st) -> forall st, for_each xs f st = for_each xs g st.
Proof.
  intros H. induction xs as [|x xs IH]; intros st; [reflexivity|].
  simpl. unfold bind. rewrite H. destruct (g x st) as [[[]|e] st1]; [apply IH|reflexivity].
Qed.

Lemma render_imap {A} (line : row -> outcome str) (f : nat -> A -> row) (h : A -> str) l :
  (forall i a, line (f i a) = Ok (h a)) ->
  render line (imap f l) = (map h l, Ok tt).
Proof.
  revert f. induction l as [|a l IH]; intros f H; [reflexivity|].
  simpl. rewrite H. rewrite (IH (f ∘ S)) by (intros; apply H). reflexivity.
Qed.

Section Schema.
Context {rt : Runtime}.

(** The rows of PRAGMA table_info all have a name and a type to print. *)
Lemma render_table_info t :
  render column_line (table_info t)
  = (map (fun c => column_text (col_name c) (col_type c)) (rel_columns t), Ok tt).
Proof. unfold table_info. now apply render_imap. Qed.

(** The loop over the columns of one table. *)
Lemma effect_columns cols st :
  effect (for_each cols (fun col =>
            c1 <- lift (index col 1) ;;
            c2 <- lift (index col 2) ;;
            print (lit "    - " ++ format_plain c1 ++ lit " (" ++ format_plain c2 ++ lit ")")))
         st (snd (render column_line cols)) (fst (render column_line cols)) [].
Proof.
  eapply effect_ext; [|apply effect_for_each_print].
  apply for_each_ext. intros c s. unfold bind, lift, column_line.
  destruct (index c 1); simpl; [|reflexivity].
  destruct (index c 2); reflexivity.
Qed.

(** The loop over the tables. *)
Lemma schema_loop_effect cur p d ts st :
  ready cur p d st ->
  effect (for_each (map (fun t => [Text (rel_name t)]) ts) (fun table =>
            table_name <- lift (index table 0) ;;
            print ([newline] ++ lit "  " ++ [file_folder] ++ lit " Table: "
                     ++ format_plain table_name) ;;;
            execute cur (PragmaTableInfo (format_plain table_name)) ;;;
            columns <- fetchall cur ;;
            for_each columns (fun col =>
              c1 <- lift (index col 1) ;;
              c2 <- lift (index col 2) ;;
              print (lit "    - " ++ format_plain c1 ++ lit " (" ++ format_plain c2 ++ lit ")"))))
         st (snd (schema_report d ts)) (fst (fst (schema_report d ts)))
         (snd (fst (schema_report d ts))).
Proof.
  revert st. induction ts as [|t ts IH]; intros st Hr; [apply effect_ret|].
  cbn [map for_each schema_report].
  assert (Hq : forall r out qs,
             effect (execute cur (PragmaTableInfo (rel_name t)) ;;;
                     columns <- fetchall cur ;;
                     for_each columns (fun col =>
                       c1 <- lift (index col 1) ;;
                       c2 <- lift (index col 2) ;;
                       print (lit "    - " ++ format_plain c1 ++ lit " ("
                                ++ format_plain c2 ++ lit ")")))
                    (set_stdout (stdout st ++ [table_line (rel_name t)]) st) r out qs ->
             effect (table_name <- lift (index [Text (rel_name t)] 0) ;;
                     print ([newline] ++ lit "  " ++ [file_folder] ++ lit " Table: "
                              ++ format_plain table_name) ;;;
                     execute cur (PragmaTableInfo (format_plain table_name)) ;;;
                     columns <- fetchall cur ;;
                     for_each columns (fun col =>
                       c1 <- lift (index col 1) ;;
                       c2 <- lift (index col 2) ;;
                       print (lit "    - " ++ format_plain c1 ++ lit " ("
                                ++ format_plain c2 ++ lit ")")))
                    st r (table_line (rel_name t) :: out) qs).
  { intros r out qs (st' & E & [We Wf Wc] & Ho & Hq). exists st'.
    split; [exact E|]. split; [now split|]. split; [|exact Hq].
    rewrite Ho. simpl. now rewrite <- app_assoc. }
  assert (Hr1 : ready cur p d (set_stdout (stdout st ++ [table_line (rel_name t)]) st))
    by exact Hr.
  destruct (exec (PragmaTableInfo (rel_name t)) d) as [[cols d']|e] eqn:Ex.
  - assert (Hc : effect (execute cur (PragmaTableInfo (rel_name t)) ;;;
                         columns <- fetchall cur ;;
                         for_each columns (fun col =>
                           c1 <- lift (index col 1) ;;
                           c2 <- lift (index col 2) ;;
                           print (lit "    - " ++ format_plain c1 ++ lit " ("
                                    ++ format_plain c2 ++ lit ")")))
                        (set_stdout (stdout st ++ [table_line (rel_name t)]) st)
                        (snd (render column_line cols)) (fst (render column_line cols))
                        [PragmaTableInfo (rel_name t)]).
    { eapply effect_query; [exact Hr1|exact Ex|reflexivity|].
      intros st2 _. apply effect_columns. }
    apply Hq in Hc.
    destruct (snd (render column_line cols)) as [[]|e] eqn:Er; cbn [fst snd].
    + apply (effect_bind _ _ _ _ _ _ [PragmaTableInfo (rel_name t)] _ _ Hc).
      intros st1 Hw1. apply IH. eapply ready_same_world; eassumption.
    + now apply effect_bind_raise.
  - apply effect_bind_raise. cbn [fst snd]. apply Hq.
    eapply effect_query_raise; [exact Hr1|exact Ex].
Qed.

(** The section as a whole. *)
Lemma schema_section_effect cur p d st :
  ready cur p d st ->
  effect (schema_section cur) st (snd (schema_report d (tables_of d)))
    (([newline; clipboard] ++ lit " DATABASE SCHEMA:") :: fst (fst (schema_report d (tables_of d))))
    (SelectTableNames :: snd (fst (schema_report d (tables_of d)))).
Proof.
  intros Hr. unfold schema_section.
  apply (effect_bind _ _ _ tt _ [[newline; clipboard] ++ lit " DATABASE SCHEMA:"] [] _ _
           (effect_print _ _)).
  intros st1 Hw1.
  eapply effect_query; [eapply ready_same_world; eassumption|reflexivity|reflexivity|].
  intros st2 Hw2. eapply schema_loop_effect.
  eapply ready_same_world; [|eassumption]. eapply same_world_trans; eassumption.
Qed.

(** Tables whose names read back are listed whole. *)
Lemma schema_report_reads_back d ts :
  Forall (reads_back d) ts ->
  schema_report d ts
  = (concat (map schema_entry ts), map (fun t => PragmaTableInfo (rel_name t)) ts, Ok tt).
Proof.
  induction 1 as [|t ts [Hp Hf] _ IH]; [reflexivity|].
  cbn [schema_report exec]. rewrite Hp. cbn [obind]. rewrite Hf, render_table_info, IH.
  reflexivity.
Qed.

(** The first table whose name PRAGMA does not take ends the loop. *)
Lemma schema_report_rejected d ts1 t ts2 e :
  Forall (reads_back d) ts1 ->
  pragma_argument (rel_name t) = Raise e ->
  schema_report d (ts1 ++ t :: ts2)
  = (concat (map schema_entry ts1) ++ [table_line (rel_name t)],
     map (fun t => PragmaTableInfo (rel_name t)) ts1 ++ [PragmaTableInfo (rel_name t)],
     Raise e).
Proof.
  intros H He. induction H as [|t1 ts1 [Hp Hf] _ IH].
  - cbn [app schema_report exec]. rewrite He. reflexivity.
  - cbn [app schema_report exec]. rewrite Hp. cbn [obind].
    rewrite Hf, render_table_info, IH. cbn [fst snd map concat]. unfold schema_entry at 1.
    cbn [app]. now rewrite <- app_assoc.
Qed.

(** [examine_database] from the point where it has connected. *)
Lemma examine_database_connected p st :
  examine_database p st
  = (schema_section (length (connections st)) ;;;
     projects_section (length (connections st)) ;;;
     tasks_section (length (connections st)) ;;;
     close (length (connections st))) (connected p st).
Proof. reflexivity. Qed.

Lemma connected_ready p d st :
  opened p (files st) !! p = Some (SqliteFile d) ->
  ready (length (connections st)) p d (connected p st).
Proof.
  intros H. split; [|exact H].
  unfold conn_view, connected. simpl. rewrite fmap_app. simpl.
  replace (length (connections st))
    with (length ((fun c => (conn_path c, conn_open c)) <$> connections st))
    by apply length_fmap.
  apply list_lookup_middle. reflexivity.
Qed.

End Schema.

Section Steps.
Context {rt : Runtime}.

(** [examine_database] on a database file, from what its three
    sections do on it. *)
Lemma examine_database_steps p d st r1 o1 q1 r2 o2 q2 r3 o3 q3 :
  opened p (files st) !! p = Some (SqliteFile d) ->
  (forall s, ready (length (connections st)) p d s ->
             effect (schema_section (length (connections st))) s r1 o1 q1) ->
  (forall s, ready (length (connections st)) p d s ->
             effect (projects_section (length (connections st))) s r2 o2 q2) ->
  (forall s, ready (length (connections st)) p d s ->
             effect (tasks_section (length (connections st))) s r3 o3 q3) ->
  exists st',
    examine_database p st
    = (fst (fst (in_sequence [(r1, o1, q1); (r2, o2, q2); (r3, o3, q3)])), st') /\
    environ st' = environ st /\ files st' = opened p (files st) /\
    stdout st' = stdout st ++ [lit "Examining database: " ++ p; repeat_char 61%N 60]
                   ++ snd (fst (in_sequence [(r1, o1, q1); (r2, o2, q2); (r3, o3, q3)])) /\
    executed st' = executed st
                   ++ snd (in_sequence [(r1, o1, q1); (r2, o2, q2); (r3, o3, q3)]) /\
    conn_view st' = conn_view st
                    ++ [(p, left_open
                              (fst (fst (in_sequence [(r1, o1, q1); (r2, o2, q2);
                                                      (r3, o3, q3)]))))].
Proof.
  intros Hf H1 H2 H3. rewrite examine_database_connected.
  pose proof (connected_ready p d st Hf) as Hr.
  set (cur := length (connections st)) in *.
  assert (V0 : conn_view (connected p st) = conn_view st ++ [(p, true)]).
  { unfold conn_view, connected. simpl. now rewrite fmap_app. }
  assert (O0 : stdout (connected p st)
               = stdout st ++ [lit "Examining database: " ++ p; repeat_char 61%N 60]).
  { unfold connected. simpl. now rewrite <- app_assoc. }
  assert (F0 : files (connected p st) = opened p (files st)) by reflexivity.
  assert (E0 : environ (connected p st) = environ st) by reflexivity.
  assert (Q0 : executed (connected p st) = executed st) by reflexivity.
  assert (Hcur : cur = length (conn_view st)).
  { unfold conn_view. now rewrite length_fmap. }
  destruct (H1 _ Hr) as (s2 & E1 & W1 & O1 & Q1).
  unfold bind at 1. rewrite E1. destruct r1 as [[]|e]; cbn [in_sequence fst snd].
  2:{ exists s2. destruct W1 as [We Wf Wc].
      rewrite We, Wf, Wc, O1, Q1, O0, V0, <- !app_assoc. auto 10. }
  apply (ready_same_world _ _ _ _ _ W1) in Hr.
  destruct (H2 _ Hr) as (s3 & E2 & W2 & O2 & Q2).
  unfold bind at 1. rewrite E2. destruct r2 as [[]|e]; cbn [in_sequence fst snd].
  2:{ exists s3. destruct W1 as [We Wf Wc], W2 as [We2 Wf2 Wc2].
      rewrite We2, Wf2, Wc2, O2, Q2, We, Wf, Wc, O1, Q1, O0, V0, <- !app_assoc. auto 10. }
  apply (ready_same_world _ _ _ _ _ W2) in Hr.
  destruct (H3 _ Hr) as (s4 & E3 & W3 & O3 & Q3).
  unfold bind at 1. rewrite E3. destruct r3 as [[]|e]; cbn [in_sequence fst snd].
  2:{ exists s4. destruct W1 as [We Wf Wc], W2 as [We2 Wf2 Wc2], W3 as [We3 Wf3 Wc3].
      rewrite We3, Wf3, Wc3, O3, Q3, We2, Wf2, Wc2, O2, Q2, We, Wf, Wc, O1, Q1, O0, V0,
        <- !app_assoc.
      auto 10. }
  destruct W1 as [We Wf Wc], W2 as [We2 Wf2 Wc2], W3 as [We3 Wf3 Wc3].
  destruct (close_view s4 cur p (conn_view st)) as (s5 & E4 & We4 & Wf4 & O4 & Q4 & V4);
    [congruence|assumption|].
  exists s5.
  rewrite E4, We4, Wf4, O4, Q4, V4, We3, Wf3, O3, Q3, We2, Wf2, O2, Q2, We, Wf, O1, Q1, O0,
    !app_nil_r, <- !app_assoc.
  auto 10.
Qed.

End Steps.

(** X10.  On a database whose table names read back, the schema section
    returns having printed its title and then, for every table of the
    catalogue in catalogue order (views are left out), the table line
    followed by one line per column in column order, with the name and
    the declared type of the column; it sends the catalogue statement
    and then one PRAGMA table_info per table. *)
Theorem schema_lists_every_table_and_column {rt : Runtime} cur p d st :
  ready cur p d st ->
  Forall (reads_back d) (tables_of d) ->
  effect (schema_section cur) st (Ok tt)
    (([newline; clipboard] ++ lit " DATABASE SCHEMA:")
     :: concat (map schema_entry (tables_of d)))
    (SelectTableNames :: map (fun t => PragmaTableInfo (rel_name t)) (tables_of d)).
Proof.
  intros Hr Hb. pose proof (schema_section_effect cur p d st Hr) as H.
  now rewrite (schema_report_reads_back d _ Hb) in H.
Qed.

(** The schema of the sample database: two tables, five and seven
    columns. *)
Lemma schema_lists_every_table_and_column_demo :
  effect (@schema_section posix_runtime 0) connected_to_two_projects (Ok tt)
    [ [newline; clipboard] ++ lit " DATABASE SCHEMA:";
      [newline] ++ lit "  " ++ [file_folder] ++ lit " Table: Projects";
      lit "    - Id (INTEGER)";
      lit "    - Name (TEXT)";
      lit "    - TaskCount (INTEGER)";
      lit "    - NextNumber (INTEGER)";
      lit "    - LastUpdated (TEXT)";
      [newline] ++ lit "  " ++ [file_folder] ++ lit " Table: TaskSpecs";
      lit "    - Id (INTEGER)";
      lit "    - ProjectId (INTEGER)";
      lit "    - Number (INTEGER)";
      lit "    - Title (TEXT)";
      lit "    - Type (TEXT)";
      lit "    - Status (TEXT)";
      lit "    - Created (TEXT)" ]
    [SelectTableNames; PragmaTableInfo (lit "Projects"); PragmaTableInfo (lit "TaskSpecs")].
Proof.
  apply (@schema_lists_every_table_and_column posix_runtime 0 db_file_name two_projects_db
           connected_to_two_projects (conj eq_refl eq_refl)).
  repeat (apply List.Forall_cons; [split; reflexivity|]). apply List.Forall_nil.
Defined.

(** X11.  The statements of the schema section are outside the [try]
    blocks: when PRAGMA table_info does not take the name of a table
    (the tables before it being listed), [examine_database] ends with
    the exception of that statement, also when it is the
    [sqlite3.OperationalError] the two listings catch.  The table line
    of that table is the last line printed, the Projects and TaskSpecs
    statements are never sent, and the connection is left open. *)
Theorem rejected_table_name_ends_examine_database {rt : Runtime} p d st ts1 t ts2 e :
  files st !! p = Some (SqliteFile d) ->
  tables_of d = ts1 ++ t :: ts2 ->
  Forall (reads_back d) ts1 ->
  pragma_argument (rel_name t) = Raise e ->
  exists st',
    examine_database p st = (Raise e, st') /\
    stdout st' = stdout st
                 ++ [lit "Examining database: " ++ p; repeat_char 61%N 60;
                     [newline; clipboard] ++ lit " DATABASE SCHEMA:"]
                 ++ concat (map schema_entry ts1) ++ [table_line (rel_name t)] /\
    executed st' = executed st
                   ++ SelectTableNames :: map (fun t => PragmaTableInfo (rel_name t)) ts1
                   ++ [PragmaTableInfo (rel_name t)] /\
    files st' = files st /\
    conn_view st' = conn_view st ++ [(p, true)].
Proof.
  intros Hf Ht Hb He.
  assert (Ho : opened p (files st) = files st) by (apply opened_existing; eauto).
  assert (Hf' : opened p (files st) !! p = Some (SqliteFile d)) by now rewrite Ho.
  destruct (examine_database_steps p d st _ _ _ _ _ _ _ _ _ Hf'
              (fun s Hr => schema_section_effect _ p d s Hr)
              (fun s Hr => projects_section_effect _ p d s Hr)
              (fun s Hr => tasks_section_effect _ p d s Hr))
    as (st' & E & _ & F & O & Q & V).
  rewrite Ht, (schema_report_rejected d ts1 t ts2 e Hb He) in E, O, Q, V.
  cbn [in_sequence fst snd left_open] in E, O, Q, V.
  exists st'. rewrite E, O, Q, V, F, Ho. repeat split.
Qed.

(** A table called my table, after a table with a plain name. *)
Lemma rejected_table_name_ends_examine_database_demo :
  exists st',
    @examine_database posix_runtime db_file_name (cwd_world spaced_name_db)
    = (Raise (OperationalError (lit "near " ++ [34%N] ++ lit "my table" ++ [34%N]
                                  ++ lit ": syntax error")), st') /\
    executed st' = [SelectTableNames; PragmaTableInfo (lit "Projects");
                    PragmaTableInfo (lit "my table")] /\
    conn_view st' = [(db_file_name, true)].
Proof.
  destruct (@rejected_table_name_ends_examine_database posix_runtime db_file_name
              spaced_name_db (cwd_world spaced_name_db)
              [empty_projects] spaced_table []
              (OperationalError (lit "near " ++ [34%N] ++ lit "my table" ++ [34%N]
                                   ++ lit ": syntax error")))
    as (st' & E & _ & Q & _ & V).
  - reflexivity.
  - reflexivity.
  - repeat (apply List.Forall_cons; [split; reflexivity|]). apply List.Forall_nil.
  - reflexivity.
  - exists st'. repeat split; assumption.
Defined.



(** X13.  A file that is no SQLite database is found out at the first
    statement, not at [sqlite3.connect]: [examine_database] prints its
    two header lines and the schema title, and ends with the
    [sqlite3.DatabaseError] of the catalogue statement, which no
    handler catches; the file is as it was and the connection is left
    open. *)
Theorem non_database_file_ends_examine_database {rt : Runtime} p st :
  files st !! p = Some OtherFile ->
  exists st',
    examine_database p st = (Raise (DatabaseError (lit "file is not a database")), st') /\
    stdout st' = stdout st
                 ++ [ lit "Examining database: " ++ p;
                      repeat_char 61%N 60;
                      [newline; clipboard] ++ lit " DATABASE SCHEMA:" ] /\
    executed st' = executed st ++ [SelectTableNames] /\
    files st' = files st /\
    conn_view st' = conn_view st ++ [(p, true)].
Proof.
  intros Hf. rewrite examine_database_connected.
  set (cur := length (connections st)).
  set (st1 := set_stdout (stdout (connected p st)
                            ++ [[newline; clipboard] ++ lit " DATABASE SCHEMA:"])
                (connected p st)).
  assert (Ec : connections st1 !! cur
               = Some {| conn_path := p; conn_open := true; conn_rows := [] |}).
  { simpl. now apply list_lookup_middle. }
  assert (Ef : files st1 !! p = Some OtherFile).
  { simpl. unfold opened. now rewrite Hf. }
  assert (E : execute cur SelectTableNames st1
              = (Raise (DatabaseError (lit "file is not a database")),
                 set_executed (executed st1 ++ [SelectTableNames]) st1)).
  { unfold execute. rewrite Ec. cbn [conn_open conn_path]. now rewrite Ef. }
  exists (set_executed (executed st1 ++ [SelectTableNames]) st1). split.
  - unfold schema_section. unfold bind at 1 2.
    change (print ([newline; clipboard] ++ lit " DATABASE SCHEMA:") (connected p st))
      with (@Ok unit tt, st1).
    cbv beta iota. unfold bind at 1. now rewrite E.
  - simpl. unfold opened. rewrite Hf, <- !app_assoc. repeat split.
    unfold conn_view. simpl. now rewrite fmap_app.
Qed.

(** A taskmaster.db that is a text file. *)
Lemma non_database_file_ends_examine_database_demo :
  exists st',
    @examine_database posix_runtime db_file_name text_file_world
    = (Raise (DatabaseError (lit "file is not a database")), st') /\
    executed st' = [SelectTableNames] /\
    conn_view st' = [(db_file_name, true)].
Proof.
  destruct (@non_database_file_ends_examine_database posix_runtime db_file_name
              text_file_world eq_refl)
    as (st' & E & _ & Q & _ & V).
  exists st'. repeat split; assumption.
Defined.

(** ** When [examine_database] returns *)

Lemma render_ok_iff (line : row -> outcome str) rows :
  snd (render line rows) = Ok tt <-> Forall (fun r => exists l, line r = Ok l) rows.
Proof.
  induction rows as [|r rows IH]; simpl.
  - split; [constructor|reflexivity].
  - destruct (line r) as [l|e] eqn:E; simpl.
    + rewrite IH, Forall_cons. split; [eauto|tauto].
    + rewrite Forall_cons. split; [discriminate|]. intros [[l Hl] _]. congruence.
Qed.

Lemma render_raise (line : row -> outcome str) rows e :
  snd (render line rows) = Raise e -> exists r, In r rows /\ line r = Raise e.
Proof.
  induction rows as [|r rows IH]; simpl; [discriminate|].
  destruct (line r) as [l|e'] eqn:E; simpl.
  - intros H. destruct (IH H) as (r' & Hin & Hr). eauto.
  - intros [= <-]. eauto.
Qed.

Lemma resolve_columns_length names cols idxs :
  resolve_columns names cols = Ok idxs -> length idxs = length names.
Proof.
  revert idxs. induction names as [|n names IH]; intros idxs.
  - now intros [= <-].
  - intros H. apply resolve_columns_cons in H as (i & rest & _ & Hr & ->).
    simpl. now rewrite (IH _ Hr).
Qed.

Section Returns.
Context {rt : Runtime}.

Lemma select_rows_length cols from keys d rows d' :
  exec (Select cols from keys) d = Ok (rows, d') ->
  Forall (fun r => length r = length cols) rows.
Proof.
  intros H. apply exec_select in H as (t & idxs & ks & _ & Hi & _ & ->).
  apply resolve_columns_length in Hi. apply Forall_fmap, Forall_true. intros r.
  unfold project. simpl. now rewrite length_map.
Qed.

(** How a listing ends, from the rows alone: it returns exactly when
    every row its statement returns can be formatted, and otherwise
    ends with the exception of a row. *)
Lemma listing_result header rule line none_msg err_msg cols from keys d (good : row -> Prop) :
  (forall r, length r = length cols ->
             ((exists l, line r = Ok l) <-> good r) /\
             ((exists l, line r = Ok l) \/ (exists msg, line r = Raise (TypeError msg)))) ->
  (fst (listing_report header rule line none_msg err_msg (exec (Select cols from keys) d))
   = Ok tt
   <-> forall rows d', exec (Select cols from keys) d = Ok (rows, d') -> Forall good rows) /\
  (forall e,
     fst (listing_report header rule line none_msg err_msg (exec (Select cols from keys) d))
     = Raise e -> exists msg, e = TypeError msg).
Proof.
  intros Hline. destruct (exec (Select cols from keys) d) as [[rows d']|e] eqn:Ex.
  - pose proof (select_rows_length _ _ _ _ _ _ Ex) as Hlen.
    assert (Hg : Forall (fun r => exists l, line r = Ok l) rows <-> Forall good rows).
    { rewrite !Forall_forall in *. split; intros H r Hr; apply (Hline r (Hlen r Hr)); auto. }
    destruct rows as [|r rows]; cbn [listing_report fst].
    + split; [|discriminate]. split; [|reflexivity].
      intros _ rows d0 [= <- _]. constructor.
    + rewrite render_ok_iff, Hg. split.
      * split; [now intros H ? ? [= <- _]|]. intros H. exact (H _ _ eq_refl).
      * intros e He. apply render_raise in He as (r' & Hin & Hr').
        rewrite Forall_forall in Hlen. apply list_elem_of_In in Hin.
        destruct (proj2 (Hline r' (Hlen r' Hin))) as [[l Hl]|[msg Hm]]; [congruence|].
        exists msg. congruence.
  - apply select_failure in Ex as [->|(c & _ & ->)]; cbn [listing_report no_such_table fst].
    + split; [|discriminate]. split; [discriminate|reflexivity].
    + split; [|discriminate]. split; [discriminate|reflexivity].
Qed.

Lemma projects_result d :
  (fst (listing_report
          (lit "  ID | Name                 | TaskCount | NextNumber | LastUpdated")
          (lit "  ---|----------------------|-----------|------------|-------------")
          project_line (lit "  No projects found.") (lit "  Error reading projects: ")
          (exec projects_query d)) = Ok tt
   <-> forall rows d', exec projects_query d = Ok (rows, d') ->
                       Forall (fun r => Forall formattable (take 4 r)) rows) /\
  (forall e,
     fst (listing_report
            (lit "  ID | Name                 | TaskCount | NextNumber | LastUpdated")
            (lit "  ---|----------------------|-----------|------------|-------------")
            project_line (lit "  No projects found.") (lit "  Error reading projects: ")
            (exec projects_query d)) = Raise e -> exists msg, e = TypeError msg).
Proof.
  apply listing_result. intros r Hr. split.
  - now apply project_line_ok_iff.
  - now apply project_line_five.
Qed.

Lemma tasks_result d :
  (fst (listing_report
          (lit "  ID | ProjID | Num | Title                | Type    | Status | Created")
          (lit "  ---|--------|-----|----------------------|---------|--------|----------")
          task_line (lit "  No task specs found.") (lit "  Error reading tasks: ")
          (exec tasks_query d)) = Ok tt
   <-> forall rows d', exec tasks_query d = Ok (rows, d') ->
                       Forall (fun r => Forall formattable (take 6 r) /\ sliceable (cell r 6))
                              rows) /\
  (forall e,
     fst (listing_report
            (lit "  ID | ProjID | Num | Title                | Type    | Status | Created")
            (lit "  ---|--------|-----|----------------------|---------|--------|----------")
            task_line (lit "  No task specs found.") (lit "  Error reading tasks: ")
            (exec tasks_query d)) = Raise e -> exists msg, e = TypeError msg).
Proof.
  apply listing_result. intros r Hr. split.
  - now apply task_line_ok_iff.
  - now apply task_line_seven.
Qed.

(** [examine_database] on a database whose table names read back:
    the schema section returns, and the two listings decide the rest. *)
Lemma examine_database_listed p d st :
  files st !! p = Some (SqliteFile d) ->
  Forall (reads_back d) (tables_of d) ->
  forall r2 r3,
    r2 = fst (listing_report
                (lit "  ID | Name                 | TaskCount | NextNumber | LastUpdated")
                (lit "  ---|----------------------|-----------|------------|-------------")
                project_line (lit "  No projects found.") (lit "  Error reading projects: ")
                (exec projects_query d)) ->
    r3 = fst (listing_report
                (lit "  ID | ProjID | Num | Title                | Type    | Status | Created")
                (lit "  ---|--------|-----|----------------------|---------|--------|----------")
                task_line (lit "  No task specs found.") (lit "  Error reading tasks: ")
                (exec tasks_query d)) ->
    exists st',
      examine_database p st
      = (match r2 with Ok _ => r3 | Raise e => Raise e end, st') /\
      executed st'
      = executed st
        ++ SelectTableNames :: map (fun t => PragmaTableInfo (rel_name t)) (tables_of d)
        ++ projects_query :: match r2 with Ok _ => [tasks_query] | Raise _ => [] end.
Proof.
  intros Hf Hb r2 r3 E2 E3.
  assert (Hf' : opened p (files st) !! p = Some (SqliteFile d)).
  { rewrite opened_existing; eauto. }
  pose proof (fun s Hr => projects_section_effect (length (connections st)) p d s Hr) as H2.
  pose proof (fun s Hr => tasks_section_effect (length (connections st)) p d s Hr) as H3.
  cbv beta in H2, H3. rewrite <- E2 in H2. rewrite <- E3 in H3.
  destruct (examine_database_steps p d st _ _ _ _ _ _ _ _ _ Hf'
              (fun s Hr => schema_section_effect _ p d s Hr) H2 H3)
    as (st' & E & _ & _ & _ & Q & _).
  rewrite (schema_report_reads_back d _ Hb) in E, Q.
  exists st'. rewrite E, Q. clear.
  destruct r2 as [[]|e2]; [destruct r3 as [[]|e3]|];
    cbn [in_sequence fst snd app]; split; reflexivity.
Qed.

End Returns.

(** X14.  On a database file whose table names read back,
    [examine_database] returns exactly when every row the Projects
    statement returns has numbers or strings in its first four cells,
    and every row the TaskSpecs statement returns has numbers or
    strings in its first six cells and a string or a bytes object as
    Created (a statement that fails returns no rows: its error is
    caught).  When it does not return, it ends with a [TypeError]. *)
Theorem examine_database_returns_iff_rows_printable {rt : Runtime} p d st :
  files st !! p = Some (SqliteFile d) ->
  Forall (reads_back d) (tables_of d) ->
  ((exists st', examine_database p st = (Ok tt, st')) <->
   (forall rows d', exec projects_query d = Ok (rows, d') ->
                    Forall (fun r => Forall formattable (take 4 r)) rows) /\
   (forall rows d', exec tasks_query d = Ok (rows, d') ->
                    Forall (fun r => Forall formattable (take 6 r) /\ sliceable (cell r 6))
                           rows)) /\
  (forall e st', examine_database p st = (Raise e, st') -> exists msg, e = TypeError msg).
Proof.
  intros Hf Hb.
  destruct (examine_database_listed p d st Hf Hb _ _ eq_refl eq_refl) as (st1 & E & _).
  destruct (projects_result d) as [P1 P2], (tasks_result d) as [T1 T2].
  rewrite <- P1, <- T1. rewrite E. clear E P1 T1.
  destruct (fst (listing_report _ _ project_line _ _ _)) as [[]|e2].
  - destruct (fst (listing_report _ _ task_line _ _ _)) as [[]|e3].
    + split; [split; eauto|]. intros e st' [=].
    + split; [split; [intros [st' [=]]|intros [_ [=]]]|].
      intros e st' [= <- _]. now apply T2.
  - split; [split; [intros [st' [=]]|intros [[=] _]]|].
    intros e st' [= <- _]. now apply P2.
Qed.

(** The two projects, one of them with a NULL LastUpdated, and no
    task: the function returns. *)
Lemma examine_database_returns_iff_rows_printable_demo :
  exists st', @examine_database posix_runtime db_file_name (cwd_world two_projects_db)
              = (Ok tt, st').
Proof.
  apply (proj1 (@examine_database_returns_iff_rows_printable posix_runtime db_file_name
                  two_projects_db (cwd_world two_projects_db) eq_refl
                  ltac:(repeat (apply List.Forall_cons; [split; reflexivity|]);
                        apply List.Forall_nil))).
  split; intros rows d' H; vm_compute in H; injection H as <- _.
  - repeat (apply List.Forall_cons; [repeat constructor|]). apply List.Forall_nil.
  - apply List.Forall_nil.
Defined.

(** X15.  On a database file whose table names read back,
    [examine_database] sends the catalogue statement, one PRAGMA
    table_info per table in catalogue order and the Projects
    statement, each once; the TaskSpecs statement follows, once, unless
    a Projects row raised a [TypeError], in which case it is never
    sent.  Nothing else is sent. *)
Theorem examine_database_statement_trace {rt : Runtime} p d st r st' :
  files st !! p = Some (SqliteFile d) ->
  Forall (reads_back d) (tables_of d) ->
  examine_database p st = (r, st') ->
  executed st'
  = executed st
    ++ SelectTableNames :: map (fun t => PragmaTableInfo (rel_name t)) (tables_of d)
    ++ [projects_query; tasks_query]
  \/ (executed st'
      = executed st
        ++ SelectTableNames :: map (fun t => PragmaTableInfo (rel_name t)) (tables_of d)
        ++ [projects_query]
      /\ exists msg, r = Raise (TypeError msg)).
Proof.
  intros Hf Hb H.
  destruct (examine_database_listed p d st Hf Hb _ _ eq_refl eq_refl) as (st1 & E & Q).
  destruct (projects_result d) as [_ P2].
  rewrite E in H. injection H as <- <-. rewrite Q. clear E Q.
  destruct (fst (listing_report _ _ project_line _ _ _)) as [[]|e2]; [now left|].
  right. split; [reflexivity|]. destruct (P2 e2 eq_refl) as [msg ->]. eauto.
Qed.

(** The run on the demo database: five statements. *)
Lemma examine_database_statement_trace_demo :
  executed (snd (@examine_database posix_runtime db_file_name (cwd_world demo_db)))
  = [SelectTableNames; PragmaTableInfo (lit "Projects"); PragmaTableInfo (lit "TaskSpecs");
     projects_query; tasks_query]
  \/ (executed (snd (@examine_database posix_runtime db_file_name (cwd_world demo_db)))
      = [SelectTableNames; PragmaTableInfo (lit "Projects"); PragmaTableInfo (lit "TaskSpecs");
         projects_query]
      /\ exists msg, fst (@examine_database posix_runtime db_file_name (cwd_world demo_db))
                     = Raise (TypeError msg)).
Proof.
  apply (@examine_database_statement_trace posix_runtime db_file_name demo_db
           (cwd_world demo_db) _ _ eq_refl
           ltac:(repeat (apply List.Forall_cons; [split; reflexivity|]);
                 apply List.Forall_nil)).
  apply surjective_pairing.
Defined.
